(** * myFinPal: the shared business-logic core

    A shallow embedding of [src/core] (goals.ts, currency.ts, recurring.ts,
    analytics.ts, storage.ts, types.ts) and the properties of it that the
    specification states.

    Conventions of the embedding.
    - A JavaScript [number] is an IEEE-754 binary64 value: Rocq's primitive
      [float], whose [+ - * /] and comparisons are the same correctly rounded
      operations.
    - The persisted document is the state.  [loadData ()] is the document that
      is passed in, [saveData] returns the document that is written.
    - What the code reads from its environment is an explicit argument: the
      identifiers [uuidv4 ()] returns, the calendar date of "today" and the
      time stamp [new Date().toISOString()].
    - A calendar date ["YYYY-MM-DD"] is the triple [CalDate].  [new Date(s)]
      is midnight UTC of that date and [toISOString()] prints UTC, while
      [getDate], [getMonth], [setDate], [setMonth] and [setFullYear] work on
      local time: the time zone of the process is the parameter [TimeZone.t]
      of recurring.ts.  In storage.ts, [getCurrentMonthTransactions] takes
      [new Date(s).getMonth()] to be the month written in [s], as it is where
      local time is not behind UTC.
    - [String(x)] of a number that is not a small integer is the text the
      caller supplies ([toString]); [toFixed] and [Math.round] are computed
      from the exact value of the double. *)

From Stdlib Require Import ZArith QArith Qabs List Bool Lia String Ascii.
From Stdlib Require Import DecimalString Sorted Permutation.
From Stdlib Require Import Floats Uint63.
From Stdlib Require Import Reals Qreals Lra Psatz.
From stdpp Require Import base strings gmap.
Import ListNotations.

Set Warnings "-inexact-float".
#[local] Open Scope string_scope.
#[local] Open Scope list_scope.
#[local] Open Scope Z_scope.

(** ** JavaScript numbers *)

Module Number.

(** [ToBoolean] of a number: false on [+0], [-0] and [NaN]. *)
Definition truthy (x : float) : bool :=
  negb (PrimFloat.eqb x 0%float) && negb (PrimFloat.is_nan x).

(** An integer literal. *)
Definition of_Z (z : Z) : float :=
  match z with
  | Z0 => 0%float
  | Zpos _ => PrimFloat.of_uint63 (Uint63.of_Z z)
  | Zneg p => (- PrimFloat.of_uint63 (Uint63.of_Z (Zpos p)))%float
  end.

(** [Math.round]: the integer nearest to [x], the larger one on a tie; [x]
    itself when it is integral, infinite or [NaN]; [-0] for [-0.5 <= x <= -0].
    A finite [x] is [(-1)^s * m * 2^e], and for [e < 0] the result is
    [floor (x + 1/2)], computed on integers. *)
Definition round (x : float) : float :=
  match Prim2SF x with
  | S754_finite s m e =>
      if 0 <=? e then x
      else
        let n := Z.shiftr (2 * cond_Zopp s (Zpos m) + Z.shiftl 1 (- e)) (1 - e) in
        if n =? 0 then (if s then (-0)%float else 0%float) else of_Z n
  | _ => x
  end.


(** The rational number that a finite double is: [(-1)^s * m * 2^e]. *)
Definition exact (x : float) : Q :=
  match Prim2SF x with
  | S754_finite s m e =>
      if 0 <=? e then inject_Z (cond_Zopp s (Zpos m) * 2 ^ e)
      else Qmake (cond_Zopp s (Zpos m)) (Z.to_pos (2 ^ (- e)))
  | _ => 0%Q
  end.

End Number.

(** ** Data types (types.ts) *)

Record CalDate := mkDate { year : Z; month : Z; day : Z }.

Inductive TxType := income | expense.

Inductive Frequency := daily | weekly | monthly | yearly.

Definition TxType_eqb (a b : TxType) : bool :=
  match a, b with
  | income, income | expense, expense => true
  | _, _ => false
  end.

Module Transaction.
Record t := mk {
  id : string;
  date : CalDate;
  amount : float;
  category : string;
  description : string;
  type : TxType;
  recurring : option bool;
  recurringFrequency : option Frequency;
  currency : option string;
}.
End Transaction.

Module RecurringTransaction.
Record t := mk {
  id : string;
  amount : float;
  type : TxType;
  category : string;
  description : string;
  frequency : Frequency;
  startDate : CalDate;
  nextDue : CalDate;
  lastProcessed : option CalDate;
  active : bool;
  currency : option string;
}.
End RecurringTransaction.

Module GoalContribution.
Record t := mk {
  id : string;
  amount : float;
  date : CalDate;
  note : option string;
}.
End GoalContribution.

Module SavingsGoal.
Record t := mk {
  id : string;
  name : string;
  targetAmount : float;
  currentAmount : float;
  deadline : option CalDate;
  createdAt : string;
  currency : string;
  contributions : list GoalContribution.t;
}.
End SavingsGoal.

Module Budget.
Record t := mk {
  category : string;
  limit : float;
  alertThreshold : float;
}.
End Budget.

(** The document.  [accounts], [categories], [defaultCurrency] and the cached
    [exchangeRates] are read by none of the functions below and are left out. *)
Module FinanceData.
Record t := mk {
  transactions : list Transaction.t;
  budgets : list Budget.t;
  recurringTransactions : list RecurringTransaction.t;
  savingsGoals : list SavingsGoal.t;
  lastUpdated : string;
}.

Definition with_savingsGoals (gs : list SavingsGoal.t) (d : t) : t :=
  mk (transactions d) (budgets d) (recurringTransactions d) gs (lastUpdated d).

Definition with_lastUpdated (s : string) (d : t) : t :=
  mk (transactions d) (budgets d) (recurringTransactions d) (savingsGoals d) s.
End FinanceData.

(** ** storage.ts: persistence *)

(** [saveData]: stamps [lastUpdated] and writes the whole document. *)
Definition saveData (now : string) (data : FinanceData.t) : FinanceData.t :=
  FinanceData.with_lastUpdated now data.

(** ** Array helpers *)

Module ArrayOps.

(** [xs.findIndex(p)]; [None] for -1. *)
Fixpoint findIndex {A : Type} (p : A -> bool) (xs : list A) : option nat :=
  match xs with
  | [] => None
  | x :: rest =>
      if p x then Some O
      else match findIndex p rest with
           | Some i => Some (S i)
           | None => None
           end
  end.

(** [xs.splice(index, 1)], the array that is left. *)
Definition splice1 {A : Type} (index : nat) (xs : list A) : list A :=
  firstn index xs ++ skipn (S index) xs.

End ArrayOps.

(** The [updates] argument of [updateGoal]: [{ name?, targetAmount?, deadline? }]. *)
Module GoalUpdates.
Record t := mk {
  name : option string;
  targetAmount : option float;
  deadline : option CalDate;
}.
End GoalUpdates.

(** ** goals.ts *)

Module Goals.

(** [{ success; goal?; error? }] *)
Record Result := mkResult {
  success : bool;
  goal : option SavingsGoal.t;
  error : option string;
}.

(** [goals.find(g => g.id === goalId)] hands out the goal object itself, and
    the code mutates it in place: the document sees the change at the first
    goal with that id. *)
Definition has_id (goalId : string) (g : SavingsGoal.t) : bool :=
  String.eqb (SavingsGoal.id g) goalId.

Fixpoint mutate_first (goalId : string) (g' : SavingsGoal.t)
    (gs : list SavingsGoal.t) : list SavingsGoal.t :=
  match gs with
  | [] => []
  | g :: rest =>
      if has_id goalId g then g' :: rest
      else g :: mutate_first goalId g' rest
  end.

Definition createGoal (uuid now : string) (name : string) (targetAmount : float)
    (deadline : option CalDate) (currency : option string) : SavingsGoal.t :=
  {| SavingsGoal.id := uuid;
     SavingsGoal.name := name;
     SavingsGoal.targetAmount := targetAmount;
     SavingsGoal.currentAmount := 0%float;
     SavingsGoal.deadline := deadline;
     SavingsGoal.createdAt := now;
     SavingsGoal.currency := default "USD" currency;
     SavingsGoal.contributions := [] |}.

(** [goal.contributions.push(c); goal.currentAmount = current'] *)
Definition push_contribution (c : GoalContribution.t) (current' : float)
    (g : SavingsGoal.t) : SavingsGoal.t :=
  {| SavingsGoal.id := SavingsGoal.id g;
     SavingsGoal.name := SavingsGoal.name g;
     SavingsGoal.targetAmount := SavingsGoal.targetAmount g;
     SavingsGoal.currentAmount := current';
     SavingsGoal.deadline := SavingsGoal.deadline g;
     SavingsGoal.createdAt := SavingsGoal.createdAt g;
     SavingsGoal.currency := SavingsGoal.currency g;
     SavingsGoal.contributions := SavingsGoal.contributions g ++ [c] |}.

Definition addContribution (uuid : string) (today : CalDate) (now : string)
    (data : FinanceData.t) (goalId : string) (amount : float)
    (note : option string) : FinanceData.t * Result :=
  match List.find (has_id goalId) (FinanceData.savingsGoals data) with
  | None => (data, mkResult false None (Some "Goal not found"))
  | Some goal =>
      let contribution :=
        {| GoalContribution.id := uuid;
           GoalContribution.amount := amount;
           GoalContribution.date := today;
           GoalContribution.note := note |} in
      let goal' :=
        push_contribution contribution
          (SavingsGoal.currentAmount goal + amount)%float goal in
      let data' :=
        FinanceData.with_savingsGoals
          (mutate_first goalId goal' (FinanceData.savingsGoals data)) data in
      (saveData now data', mkResult true (Some goal') None)
  end.

(** [note || 'Withdrawal']: the empty string is falsy as well. *)
Definition note_or_default (note : option string) : string :=
  match note with
  | Some s => if String.eqb s "" then "Withdrawal" else s
  | None => "Withdrawal"
  end.

Definition withdrawFromGoal (uuid : string) (today : CalDate) (now : string)
    (data : FinanceData.t) (goalId : string) (amount : float)
    (note : option string) : FinanceData.t * Result :=
  match List.find (has_id goalId) (FinanceData.savingsGoals data) with
  | None => (data, mkResult false None (Some "Goal not found"))
  | Some goal =>
      if (SavingsGoal.currentAmount goal <? amount)%float then
        (data, mkResult false None (Some "Insufficient funds in goal"))
      else
        let contribution :=
          {| GoalContribution.id := uuid;
             GoalContribution.amount := (- amount)%float;
             GoalContribution.date := today;
             GoalContribution.note := Some (note_or_default note) |} in
        let goal' :=
          push_contribution contribution
            (SavingsGoal.currentAmount goal - amount)%float goal in
        let data' :=
          FinanceData.with_savingsGoals
            (mutate_first goalId goal' (FinanceData.savingsGoals data)) data in
        (saveData now data', mkResult true (Some goal') None)
  end.

(** The signed sum of a ledger, as
    [contributions.reduce((s, c) => s + c.amount, 0)]. *)
Definition ledgerSum (cs : list GoalContribution.t) : float :=
  fold_left (fun s c => (s + GoalContribution.amount c)%float) cs 0%float.

Definition consistent (g : SavingsGoal.t) : Prop :=
  SavingsGoal.currentAmount g = ledgerSum (SavingsGoal.contributions g).

Definition fresh (g : SavingsGoal.t) : Prop :=
  SavingsGoal.currentAmount g = 0%float /\ SavingsGoal.contributions g = [].

(** One request of a caller, with what the environment supplies to it. *)
Inductive Op :=
| Contribute (uuid : string) (today : CalDate) (now : string)
    (goalId : string) (amount : float) (note : option string)
| Withdraw (uuid : string) (today : CalDate) (now : string)
    (goalId : string) (amount : float) (note : option string).

(** The goal an operation is aimed at. *)
Definition target (op : Op) : string :=
  match op with
  | Contribute _ _ _ goalId _ _ | Withdraw _ _ _ goalId _ _ => goalId
  end.

Definition step (data : FinanceData.t) (op : Op) : FinanceData.t * Result :=
  match op with
  | Contribute uuid today now goalId amount note =>
      addContribution uuid today now data goalId amount note
  | Withdraw uuid today now goalId amount note =>
      withdrawFromGoal uuid today now data goalId amount note
  end.

Definition run (data : FinanceData.t) (ops : list Op) : FinanceData.t :=
  fold_left (fun d op => fst (step d op)) ops data.

Definition deleteGoal (now : string) (data : FinanceData.t) (id : string)
    : FinanceData.t * bool :=
  match ArrayOps.findIndex (has_id id) (FinanceData.savingsGoals data) with
  | None => (data, false)
  | Some index =>
      (saveData now
         (FinanceData.with_savingsGoals
            (ArrayOps.splice1 index (FinanceData.savingsGoals data)) data),
       true)
  end.

(** [if (updates.name) goal.name = updates.name], and so on: an empty name and
    a target of 0 or [NaN] are falsy and leave the field as it is. *)
Definition updated (updates : GoalUpdates.t) (goal : SavingsGoal.t) : SavingsGoal.t :=
  {| SavingsGoal.id := SavingsGoal.id goal;
     SavingsGoal.name :=
       match GoalUpdates.name updates with
       | Some s => if String.eqb s "" then SavingsGoal.name goal else s
       | None => SavingsGoal.name goal
       end;
     SavingsGoal.targetAmount :=
       match GoalUpdates.targetAmount updates with
       | Some x => if Number.truthy x then x else SavingsGoal.targetAmount goal
       | None => SavingsGoal.targetAmount goal
       end;
     SavingsGoal.currentAmount := SavingsGoal.currentAmount goal;
     SavingsGoal.deadline :=
       match GoalUpdates.deadline updates with
       | Some d => Some d
       | None => SavingsGoal.deadline goal
       end;
     SavingsGoal.createdAt := SavingsGoal.createdAt goal;
     SavingsGoal.currency := SavingsGoal.currency goal;
     SavingsGoal.contributions := SavingsGoal.contributions goal |}.

Definition updateGoal (now : string) (data : FinanceData.t) (id : string)
    (updates : GoalUpdates.t) : FinanceData.t * Result :=
  match List.find (has_id id) (FinanceData.savingsGoals data) with
  | None => (data, mkResult false None (Some "Goal not found"))
  | Some goal =>
      let goal' := updated updates goal in
      let data' :=
        FinanceData.with_savingsGoals
          (mutate_first id goal' (FinanceData.savingsGoals data)) data in
      (saveData now data', mkResult true (Some goal') None)
  end.

Record Summary := mkSummary {
  totalGoals : nat;
  totalTargetAmount : float;
  totalSaved : float;
  overallProgress : float;
  completedGoals : nat;
}.

Definition getGoalsSummary (data : FinanceData.t) : Summary :=
  let goals := FinanceData.savingsGoals data in
  let totalTargetAmount :=
    fold_left (fun sum g => (sum + SavingsGoal.targetAmount g)%float) goals 0%float in
  let totalSaved :=
    fold_left (fun sum g => (sum + SavingsGoal.currentAmount g)%float) goals 0%float in
  let completedGoals :=
    List.length
      (List.filter
         (fun g => (SavingsGoal.targetAmount g <=? SavingsGoal.currentAmount g)%float)
         goals) in
  {| totalGoals := List.length goals;
     totalTargetAmount := totalTargetAmount;
     totalSaved := totalSaved;
     overallProgress :=
       if (0 <? totalTargetAmount)%float
       then (totalSaved / totalTargetAmount * 100)%float else 0%float;
     completedGoals := completedGoals |}.

(** A document with one freshly created goal, for the examples. *)
Definition demo_goal : SavingsGoal.t :=
  createGoal "g-1" "2024-06-01T09:00:00.000Z" "Vacation" 1000%float None None.

Definition demo_data : FinanceData.t :=
  FinanceData.mk [] [] [] [demo_goal] "2024-06-01T09:00:00.000Z".

Definition demo_ops : list Op :=
  [ Contribute "c-1" (mkDate 2024 6 2) "t1" "g-1" 120.5%float None;
    Withdraw "c-2" (mkDate 2024 6 3) "t2" "g-1" 20.25%float (Some "");
    Withdraw "c-3" (mkDate 2024 6 4) "t3" "g-1" 500%float None;
    Contribute "c-4" (mkDate 2024 6 5) "t4" "g-1" (-0.1)%float (Some "fee") ].

End Goals.

(** ** currency.ts *)

Module Currency.

Definition SUPPORTED_CURRENCIES : list string :=
  ["USD"; "EUR"; "GBP"; "JPY"; "CAD"; "AUD"; "CHF"; "CNY"; "INR"; "MXN"; "BRL"; "KRW"].

(** [s.toUpperCase()] on the ASCII letters; currency codes are ASCII. *)
Definition upper_ascii (c : ascii) : ascii :=
  let n := nat_of_ascii c in
  if (97 <=? n)%nat && (n <=? 122)%nat then ascii_of_nat (n - 32) else c.

Fixpoint toUpperCase (s : string) : string :=
  match s with
  | EmptyString => EmptyString
  | String c rest => String (upper_ascii c) (toUpperCase rest)
  end.

Record Conversion := mkConversion {
  convertedAmount : float;
  rate : float;
}.

Definition DEFAULT_EXCHANGE_RATES : gmap string float :=
  {[ "USD" := 1%float;
     "EUR" := 0.92%float;
     "GBP" := 0.79%float;
     "JPY" := 149.50%float;
     "CAD" := 1.36%float;
     "AUD" := 1.53%float;
     "CHF" := 0.88%float;
     "CNY" := 7.24%float;
     "INR" := 83.12%float;
     "MXN" := 17.15%float;
     "BRL" := 4.97%float;
     "KRW" := 1320.50%float ]}.

(** [exchangeRates[code] || 1] *)
Definition rate_or_1 (exchangeRates : gmap string float) (code : string) : float :=
  match exchangeRates !! code with
  | Some r => if Number.truthy r then r else 1%float
  | None => 1%float
  end.

Definition convertCurrency (amount : float) (fromCurrency toCurrency : string)
    (rates : option (gmap string float)) : Conversion :=
  let exchangeRates := default DEFAULT_EXCHANGE_RATES rates in
  let from := toUpperCase fromCurrency in
  let to := toUpperCase toCurrency in
  if String.eqb from to then
    {| convertedAmount := amount; rate := 1%float |}
  else
    let fromRate := rate_or_1 exchangeRates from in
    let toRate := rate_or_1 exchangeRates to in
    let amountInUSD := (amount / fromRate)%float in
    let convertedAmount := (amountInUSD * toRate)%float in
    let rate := (toRate / fromRate)%float in
    {| convertedAmount := (Number.round (convertedAmount * 100) / 100)%float;
       rate := (Number.round (rate * 10000) / 10000)%float |}.






End Currency.

(** ** Doubles as real numbers

    What the error analysis of a conversion is written with: the real value
    of a double, the position of a real number between two integers as
    [SpecFloat] records it, and the relative and absolute error of a rounded
    result. *)

Module Real64.

(** [2^e] *)
Definition bpow (e : Z) : R := powerRZ 2 e.





(** The real value of a double; 0 for an infinity and for NaN. *)
Definition SF2R (x : spec_float) : R :=
  match x with
  | S754_finite s m e => ((if s then -1 else 1) * (IZR (Zpos m) * bpow e))%R
  | _ => 0%R
  end.


Definition value (x : float) : R := SF2R (Prim2SF x).



End Real64.

(** ** Calendar dates

    The calendar that [Date] works with, on the triple.  A setter may leave a
    day of the month past the end of the month; the date then is that many
    days into the next month (31 February 2023 is 3 March 2023). *)

Module Calendar.

Definition isLeapYear (y : Z) : bool :=
  ((y mod 4 =? 0) && negb (y mod 100 =? 0)) || (y mod 400 =? 0).

Definition daysInMonth (y m : Z) : Z :=
  if m =? 2 then (if isLeapYear y then 29 else 28)
  else if (m =? 4) || (m =? 6) || (m =? 9) || (m =? 11) then 30
  else 31.

Definition nextMonth (y m : Z) : Z * Z :=
  if m =? 12 then (y + 1, 1) else (y, m + 1).

(** The date with fields [y], [m], [d], for [1 <= d] at most one month past
    the end of month [m]. *)
Definition makeDate (y m d : Z) : CalDate :=
  if daysInMonth y m <? d then
    let (y', m') := nextMonth y m in mkDate y' m' (d - daysInMonth y m)
  else mkDate y m d.

(** [a <= b] on the ISO strings: year, then month, then day. *)
Definition leb (a b : CalDate) : bool :=
  if year a <? year b then true
  else if year b <? year a then false
  else if month a <? month b then true
  else if month b <? month a then false
  else day a <=? day b.


(** A month and a day of the month that a calendar can show. *)
Definition plausible (d : CalDate) : Prop :=
  1 <= month d <= 12 /\ 1 <= day d <= 31.

(** A number that orders plausible dates as [leb] does. *)
Definition rank (d : CalDate) : Z := (year d * 12 + month d) * 32 + day d.

(** A date that exists: a month of the year and a day of that month. *)
Definition valid (d : CalDate) : Prop :=
  1 <= month d <= 12 /\ 1 <= day d <= daysInMonth (year d) (month d).

Definition prevMonth (y m : Z) : Z * Z :=
  if m =? 1 then (y - 1, 12) else (y, m - 1).

Definition nextDay (d : CalDate) : CalDate :=
  if day d <? daysInMonth (year d) (month d)
  then mkDate (year d) (month d) (day d + 1)
  else let (y', m') := nextMonth (year d) (month d) in mkDate y' m' 1.

Definition prevDay (d : CalDate) : CalDate :=
  if 1 <? day d then mkDate (year d) (month d) (day d - 1)
  else let (y', m') := prevMonth (year d) (month d) in
       mkDate y' m' (daysInMonth y' m').

(** The date [n] days after [d], before it for a negative [n]. *)
Definition addDays (n : Z) (d : CalDate) : CalDate :=
  if 0 <=? n then Nat.iter (Z.to_nat n) nextDay d
  else Nat.iter (Z.to_nat (- n)) prevDay d.

(** [MakeDay(year, month, date)] of ECMAScript for a month of the year: the
    first of the month, [date - 1] days on. *)
Definition makeDay (y m d : Z) : CalDate := addDays (d - 1) (mkDate y m 1).

Definition msPerDay : Z := 86400000.

End Calendar.

(** ** The local time zone

    A time is a calendar date and the milliseconds since its midnight.  The
    zone is ECMAScript's [LocalTZA]: the milliseconds that local time is
    ahead of UTC, at a time given in UTC and at a time given in local time. *)

Module TimeZone.

Record t := mk {
  offsetAtUTC : CalDate -> Z -> Z;
  offsetAtLocal : CalDate -> Z -> Z;
}.

(** A zone without clock changes, [minutes] ahead of UTC. *)
Definition fixed (minutes : Z) : t :=
  mk (fun _ _ => minutes * 60000) (fun _ _ => minutes * 60000).

Definition UTC : t := fixed 0.

(** The time [offset] milliseconds after [ms] on the date [d]. *)
Definition shift (d : CalDate) (ms offset : Z) : CalDate * Z :=
  let total := ms + offset in
  (Calendar.addDays (total / Calendar.msPerDay) d, total mod Calendar.msPerDay).

(** [LocalTime(t)] *)
Definition toLocal (tz : t) (d : CalDate) (ms : Z) : CalDate * Z :=
  shift d ms (offsetAtUTC tz d ms).

(** [UTC(t)] *)
Definition toUTC (tz : t) (d : CalDate) (ms : Z) : CalDate * Z :=
  shift d ms (- offsetAtLocal tz d ms).

(** Local time is a fixed offset of less than a day ahead of UTC: UTC itself,
    or a zone east of it without clock changes. *)
Definition steadyEast (tz : t) : Prop :=
  exists offset, 0 <= offset < Calendar.msPerDay /\
    forall d ms, offsetAtUTC tz d ms = offset /\ offsetAtLocal tz d ms = offset.

End TimeZone.

(** ** recurring.ts *)

Module Recurring.

(** The step on the calendar alone: the fields of the date moved by the
    frequency, and a day of the month past the end of its month carried into
    the next one.  It is what [calculateNextDueDate] returns for a date that
    exists where local time is a fixed offset of less than a day ahead of
    UTC. *)
Definition nextOnCalendar (currentDate : CalDate) (frequency : Frequency)
    : CalDate :=
  let (y, m, d) := currentDate in
  match frequency with
  | daily => Calendar.makeDate y m (d + 1)
  | weekly => Calendar.makeDate y m (d + 7)
  | monthly => let (y', m') := Calendar.nextMonth y m in Calendar.makeDate y' m' d
  | yearly => Calendar.makeDate (y + 1) m d
  end.

Section Zone.
Context (tz : TimeZone.t).

(** [new Date(currentDate)] is midnight UTC of the date; the setter reads and
    writes the fields of local time and keeps the local time of day;
    [toISOString().split('T')[0]] is the UTC date of the result. *)
Definition calculateNextDueDate (currentDate : CalDate) (frequency : Frequency)
    : CalDate :=
  let (date, time) := TimeZone.toLocal tz currentDate 0 in
  let (y, m, d) := date in
  let date' :=
    match frequency with
    | daily => Calendar.makeDay y m (d + 1)
    | weekly => Calendar.makeDay y m (d + 7)
    | monthly => let (y', m') := Calendar.nextMonth y m in Calendar.makeDay y' m' d
    | yearly => Calendar.makeDay (y + 1) m d
    end in
  fst (TimeZone.toUTC tz date' time).

Definition advance (r : RecurringTransaction.t) : RecurringTransaction.t :=
  {| RecurringTransaction.id := RecurringTransaction.id r;
     RecurringTransaction.amount := RecurringTransaction.amount r;
     RecurringTransaction.type := RecurringTransaction.type r;
     RecurringTransaction.category := RecurringTransaction.category r;
     RecurringTransaction.description := RecurringTransaction.description r;
     RecurringTransaction.frequency := RecurringTransaction.frequency r;
     RecurringTransaction.startDate := RecurringTransaction.startDate r;
     RecurringTransaction.nextDue :=
       calculateNextDueDate (RecurringTransaction.nextDue r)
         (RecurringTransaction.frequency r);
     RecurringTransaction.lastProcessed := Some (RecurringTransaction.nextDue r);
     RecurringTransaction.active := RecurringTransaction.active r;
     RecurringTransaction.currency := RecurringTransaction.currency r |}.

Definition materialize (uuid : string) (r : RecurringTransaction.t) : Transaction.t :=
  {| Transaction.id := uuid;
     Transaction.date := RecurringTransaction.nextDue r;
     Transaction.amount := RecurringTransaction.amount r;
     Transaction.category := RecurringTransaction.category r;
     Transaction.description :=
       String.append (RecurringTransaction.description r) " (recurring)";
     Transaction.type := RecurringTransaction.type r;
     Transaction.recurring := Some true;
     Transaction.recurringFrequency := Some (RecurringTransaction.frequency r);
     Transaction.currency := RecurringTransaction.currency r |}.

(** The state of the run: the identifiers drawn so far, the document's ledger
    and the transactions made in this run. *)
Record Run := mkRun {
  drawn : nat;
  ledger : list Transaction.t;
  processedTransactions : list Transaction.t;
}.

(** [while (recurring.nextDue <= today) { ... }], at most [fuel] rounds;
    [None] when the rounds do not suffice. *)
Fixpoint catchUp (fuel : nat) (uuid : nat -> string) (today : CalDate)
    (r : RecurringTransaction.t) (st : Run) : option (RecurringTransaction.t * Run) :=
  if Calendar.leb (RecurringTransaction.nextDue r) today then
    match fuel with
    | O => None
    | S fuel' =>
        let transaction := materialize (uuid (drawn st)) r in
        catchUp fuel' uuid today (advance r)
          (mkRun (S (drawn st)) (ledger st ++ [transaction])
             (processedTransactions st ++ [transaction]))
    end
  else Some (r, st).

(** [for (const recurring of recurringList) { if (!recurring.active) continue; ... }] *)
Fixpoint forEach (fuel : nat) (uuid : nat -> string) (today : CalDate)
    (recurringList : list RecurringTransaction.t) (st : Run)
    : option (list RecurringTransaction.t * Run) :=
  match recurringList with
  | [] => Some ([], st)
  | r :: rest =>
      if negb (RecurringTransaction.active r) then
        match forEach fuel uuid today rest st with
        | Some (rest', st') => Some (r :: rest', st')
        | None => None
        end
      else
        match catchUp fuel uuid today r st with
        | Some (r', st1) =>
            match forEach fuel uuid today rest st1 with
            | Some (rest', st') => Some (r' :: rest', st')
            | None => None
            end
        | None => None
        end
  end.

Record Processed := mkProcessed {
  processed : nat;
  transactions : list Transaction.t;
}.

Definition processRecurringTransactions (fuel : nat) (uuid : nat -> string)
    (today : CalDate) (now : string) (data : FinanceData.t)
    : option (FinanceData.t * Processed) :=
  match forEach fuel uuid today (FinanceData.recurringTransactions data)
          (mkRun 0 (FinanceData.transactions data) []) with
  | None => None
  | Some (recurringList', st) =>
      let data' :=
        FinanceData.mk (ledger st) (FinanceData.budgets data) recurringList'
          (FinanceData.savingsGoals data) (FinanceData.lastUpdated data) in
      let data'' :=
        match processedTransactions st with
        | [] => data'
        | _ :: _ => saveData now data'
        end in
      Some (data'', mkProcessed (List.length (processedTransactions st))
                      (processedTransactions st))
  end.

End Zone.

(** [createRecurringTransaction] with a [startDate]. *)
Definition createRecurringTransaction (uuid : string) (today : CalDate)
    (amount : float) (type : TxType) (category description : string)
    (frequency : Frequency) (startDate : option CalDate) (currency : option string)
    : RecurringTransaction.t :=
  let start := default today startDate in
  {| RecurringTransaction.id := uuid;
     RecurringTransaction.amount := PrimFloat.abs amount;
     RecurringTransaction.type := type;
     RecurringTransaction.category := category;
     RecurringTransaction.description := description;
     RecurringTransaction.frequency := frequency;
     RecurringTransaction.startDate := start;
     RecurringTransaction.nextDue := start;
     RecurringTransaction.lastProcessed := None;
     RecurringTransaction.active := true;
     RecurringTransaction.currency := currency |}.

Definition has_id (id : string) (r : RecurringTransaction.t) : bool :=
  String.eqb (RecurringTransaction.id r) id.

Definition with_recurring (rs : list RecurringTransaction.t) (d : FinanceData.t)
    : FinanceData.t :=
  FinanceData.mk (FinanceData.transactions d) (FinanceData.budgets d) rs
    (FinanceData.savingsGoals d) (FinanceData.lastUpdated d).

(** [recurring.active = active] *)
Definition set_active (active : bool) (r : RecurringTransaction.t)
    : RecurringTransaction.t :=
  {| RecurringTransaction.id := RecurringTransaction.id r;
     RecurringTransaction.amount := RecurringTransaction.amount r;
     RecurringTransaction.type := RecurringTransaction.type r;
     RecurringTransaction.category := RecurringTransaction.category r;
     RecurringTransaction.description := RecurringTransaction.description r;
     RecurringTransaction.frequency := RecurringTransaction.frequency r;
     RecurringTransaction.startDate := RecurringTransaction.startDate r;
     RecurringTransaction.nextDue := RecurringTransaction.nextDue r;
     RecurringTransaction.lastProcessed := RecurringTransaction.lastProcessed r;
     RecurringTransaction.active := active;
     RecurringTransaction.currency := RecurringTransaction.currency r |}.

(** The object that [find] hands out is changed in place: the list sees the
    change at the first entry with the id. *)
Fixpoint toggle_first (id : string) (active : bool)
    (rs : list RecurringTransaction.t) : list RecurringTransaction.t :=
  match rs with
  | [] => []
  | r :: rest =>
      if has_id id r then set_active active r :: rest
      else r :: toggle_first id active rest
  end.

Definition toggleRecurringTransaction (now : string) (data : FinanceData.t)
    (id : string) (active : bool) : FinanceData.t * bool :=
  match List.find (has_id id) (FinanceData.recurringTransactions data) with
  | None => (data, false)
  | Some _ =>
      (saveData now
         (with_recurring
            (toggle_first id active (FinanceData.recurringTransactions data)) data),
       true)
  end.

Definition deleteRecurringTransaction (now : string) (data : FinanceData.t)
    (id : string) : FinanceData.t * bool :=
  match ArrayOps.findIndex (has_id id) (FinanceData.recurringTransactions data) with
  | None => (data, false)
  | Some index =>
      (saveData now
         (with_recurring
            (ArrayOps.splice1 index (FinanceData.recurringTransactions data)) data),
       true)
  end.

(** The rounds one entry needs when its due date and today are dates that
    exist: at most one for each step of the rank up to today's. *)
Definition roundsFor (today : CalDate) (r : RecurringTransaction.t) : nat :=
  Z.to_nat (Calendar.rank today - Calendar.rank (RecurringTransaction.nextDue r) + 1).

Definition roundsNeeded (today : CalDate) (rs : list RecurringTransaction.t) : nat :=
  fold_right (fun r n => Nat.max (roundsFor today r) n) O rs.

(** [date], [k] days on by [setDate(getDate() + 1)]. *)
Fixpoint daysOn (tz : TimeZone.t) (k : nat) (d : CalDate) : CalDate :=
  match k with
  | O => d
  | S k' => calculateNextDueDate tz (daysOn tz k' d) daily
  end.

(** A document holding one recurring entry and nothing else. *)
Definition only (r : RecurringTransaction.t) : FinanceData.t :=
  FinanceData.mk [] [] [r] [] "2024-01-01T00:00:00.000Z".

Definition demo_uuid (n : nat) : string :=
  String.append "tx-" (String (ascii_of_nat (48 + n)) EmptyString).

Definition demo_rent (start : CalDate) : RecurringTransaction.t :=
  createRecurringTransaction "r-1" start 1200%float expense "Bills & Utilities"
    "Rent" monthly (Some start) None.

(** [r] after [n] rounds of the loop. *)
Fixpoint advanced (tz : TimeZone.t) (n : nat) (r : RecurringTransaction.t)
    : RecurringTransaction.t :=
  match n with
  | O => r
  | S n' => advanced tz n' (advance tz r)
  end.

(** An entry after the call: a paused one is as it was; an active one has
    been advanced some rounds and is due after today. *)
Definition settledFrom (tz : TimeZone.t) (today : CalDate)
    (r r' : RecurringTransaction.t) : Prop :=
  if RecurringTransaction.active r
  then Calendar.leb (RecurringTransaction.nextDue r') today = false /\
       exists n, r' = advanced tz n r
  else r' = r.

End Recurring.

(** ** Objects used as maps, arrays

    A plain object [{}] keyed by strings is the list of its own properties in
    creation order.  Enumeration ([Object.entries], [Object.values]) lists the
    keys that are array indices first, in ascending numeric order, then the
    other keys in creation order.  Keys are taken not to be names that every
    object inherits ([constructor], [toString], ...). *)

Module Obj.

Definition t (V : Type) : Type := list (string * V).

Fixpoint get {V : Type} (o : t V) (k : string) : option V :=
  match o with
  | [] => None
  | (k', v) :: o' => if String.eqb k' k then Some v else get o' k
  end.

(** [o[k] = v] *)
Fixpoint set {V : Type} (o : t V) (k : string) (v : V) : t V :=
  match o with
  | [] => [(k, v)]
  | (k', v') :: o' =>
      if String.eqb k' k then (k', v) :: o' else (k', v') :: set o' k v
  end.

Definition digitOf (c : ascii) : option N :=
  let n := N_of_ascii c in
  if ((48 <=? n) && (n <=? 57))%N then Some (n - 48)%N else None.

Fixpoint digits (s : string) (acc : N) : option N :=
  match s with
  | EmptyString => Some acc
  | String c rest =>
      match digitOf c with
      | Some d => digits rest (10 * acc + d)%N
      | None => None
      end
  end.

(** An array index: a canonical decimal numeral of an integer in
    [0, 2^32 - 2]. *)
Definition arrayIndex (k : string) : option N :=
  match k with
  | EmptyString => None
  | String c rest =>
      if Ascii.eqb c "0" then (if String.eqb rest "" then Some 0%N else None)
      else
        match digits k 0 with
        | Some n => if (n <=? 4294967294)%N then Some n else None
        | None => None
        end
  end.

Fixpoint insertIndex {V : Type} (n : N) (e : string * V)
    (l : list (N * (string * V))) : list (N * (string * V)) :=
  match l with
  | [] => [(n, e)]
  | (n', e') :: l' =>
      if (n <? n')%N then (n, e) :: (n', e') :: l'
      else (n', e') :: insertIndex n e l'
  end.

Definition indexed {V : Type} (o : t V) : list (N * (string * V)) :=
  fold_left
    (fun acc e =>
       match arrayIndex (fst e) with
       | Some n => insertIndex n e acc
       | None => acc
       end) o [].

Definition named {V : Type} (o : t V) : list (string * V) :=
  List.filter (fun e => match arrayIndex (fst e) with Some _ => false | None => true end) o.

(** [Object.entries(o)] *)
Definition entries {V : Type} (o : t V) : list (string * V) :=
  map snd (indexed o) ++ named o.

(** [Object.values(o)] *)
Definition values {V : Type} (o : t V) : list V := map snd (entries o).

(** [f] applied to the value at key [k], the other properties kept. *)
Definition onKey {V : Type} (k : string) (f : V -> V) (e : string * V) : string * V :=
  (fst e, if String.eqb (fst e) k then f (snd e) else snd e).

End Obj.

Module JSArray.

(** [xs.sort(cmp)]: stable; [x] goes before the first [y] with
    [cmp(y, x) > 0].  For a comparator that is a consistent ordering, which
    is where the order of the result is defined. *)
Fixpoint insertBy {A : Type} (cmp : A -> A -> float) (x : A) (sorted : list A)
    : list A :=
  match sorted with
  | [] => [x]
  | y :: rest =>
      if (0 <? cmp y x)%float then x :: y :: rest
      else y :: insertBy cmp x rest
  end.

Definition sort {A : Type} (cmp : A -> A -> float) (xs : list A) : list A :=
  fold_left (fun sorted x => insertBy cmp x sorted) xs [].

(** [x] may stand before [y]: the comparator does not put it after. *)
Definition mayPrecede {A : Type} (cmp : A -> A -> float) (x y : A) : Prop :=
  (0 <? cmp x y)%float = false.

(** [xs.join(sep)] *)
Fixpoint join (sep : string) (xs : list string) : string :=
  match xs with
  | [] => ""
  | [x] => x
  | x :: rest => String.append x (String.append sep (join sep rest))
  end.

End JSArray.

(** ** Numbers and dates as text *)

Module Format.

(** The decimal numeral of a natural number. *)
Definition decimal (n : N) : string := NilZero.string_of_uint (N.to_uint n).

(** [String(z)] for a small integer. *)
Definition ofInteger (z : Z) : string :=
  if z <? 0 then String.append "-" (decimal (Z.to_N (- z))) else decimal (Z.to_N z).

(** [String(x)] for a number: the decimal numeral of an integral [x] below
    2^53 in size; for the other finite numbers the text is the caller's. *)
Definition ofNumber (toString : float -> string) (x : float) : string :=
  match Prim2SF x with
  | S754_nan => "NaN"
  | S754_infinity s => if s then "-Infinity" else "Infinity"
  | S754_zero _ => "0"
  | S754_finite s m e =>
      if (9007199254740992 <=? PrimFloat.abs x)%float then toString x
      else
        let n := if 0 <=? e then Z.shiftl (Zpos m) e else Z.shiftr (Zpos m) (- e) in
        if (0 <=? e) || (Z.shiftl n (- e) =? Zpos m) then
          String.append (if s then "-" else "") (decimal (Z.to_N n))
        else toString x
  end.

Fixpoint zeros (n : nat) : string :=
  match n with
  | O => ""
  | S n' => String "0" (zeros n')
  end.

(** [s.padStart(n, '0')] *)
Definition padStart (n : nat) (s : string) : string :=
  String.append (zeros (n - String.length s)) s.

(** The digits of [n / 10^f] with [f] decimals. *)
Definition fixedDigits (n : N) (f : nat) : string :=
  match f with
  | O => decimal n
  | S _ =>
      let ds := padStart (S f) (decimal n) in
      let k := (String.length ds - f)%nat in
      String.append (String.substring 0 k ds)
        (String.append "." (String.substring k f ds))
  end.

(** [x.toFixed(f)].  [x] is [(-1)^s * m * 2^e]; the integer [n] with
    [n / 10^f] nearest to [|x|], the larger one on a tie, is
    [floor (m * 2^e * 10^f + 1/2)].  From 1e21 on the text is that of
    [String(x)], which the caller supplies. *)
Definition toFixed (toString : float -> string) (x : float) (f : nat) : string :=
  match Prim2SF x with
  | S754_nan => "NaN"
  | S754_infinity s => if s then "-Infinity" else "Infinity"
  | S754_zero _ => fixedDigits 0 f
  | S754_finite s m e =>
      if (1e21 <=? PrimFloat.abs x)%float then toString x
      else
        let scaled := Zpos m * 10 ^ Z.of_nat f in
        let n :=
          if 0 <=? e then Z.shiftl scaled e
          else Z.shiftr (2 * scaled + Z.shiftl 1 (- e)) (1 - e) in
        String.append (if s then "-" else "") (fixedDigits (Z.to_N n) f)
  end.

(** The date as [toISOString().split('T')[0]] writes it, years 0 to 9999. *)
Definition isoDate (d : CalDate) : string :=
  String.append (padStart 4 (ofInteger (year d)))
    (String.append "-"
       (String.append (padStart 2 (ofInteger (month d)))
          (String.append "-" (padStart 2 (ofInteger (day d)))))).

(** [s.startsWith(p)] *)
Definition startsWith (p s : string) : bool := String.prefix p s.

End Format.

(** ** storage.ts: derived views *)

Module Storage.


Definition isIncome (t : Transaction.t) : bool :=
  TxType_eqb (Transaction.type t) income.




(** Whether [k] is among [seen]. *)
Definition seenBefore (seen : list string) (k : string) : bool :=
  existsb (fun k' => String.eqb k' k) seen.

(** The categories [cs] in order of first appearance, those in [seen] left
    out. *)
Fixpoint firstSeen (seen : list string) (cs : list string) : list string :=
  match cs with
  | [] => []
  | c :: rest =>
      if seenBefore seen c then firstSeen seen rest
      else c :: firstSeen (seen ++ [c]) rest
  end.


End Storage.

(** ** analytics.ts *)

Module Analytics.



Definition sumAmounts (ts : list Transaction.t) : float :=
  fold_left (fun sum t => (sum + Transaction.amount t)%float) ts 0%float.









Definition expenseOf (id : string) (date : CalDate) (category : string)
    (amount : float) : Transaction.t :=
  Transaction.mk id date amount category "" expense None None None.

Definition incomeOf (id : string) (date : CalDate) (category : string)
    (amount : float) : Transaction.t :=
  Transaction.mk id date amount category "" income None None None.




End Analytics.

(** ** storage.ts: the CSV exports *)

Module CsvExport.

(** [{ income, expenses, transactions }] *)
Record MonthData := mkMonth {
  income : float;
  expenses : float;
  transactions : nat;
}.

Definition noActivity : MonthData := mkMonth 0%float 0%float 0.

Definition newline : string := String (ascii_of_nat 10) EmptyString.

(** [`${targetYear}-${String(month + 1).padStart(2, '0')}`] *)
Definition monthKey (targetYear : string) (month : nat) : string :=
  String.append targetYear
    (String.append "-" (Format.padStart 2 (Format.ofInteger (Z.of_nat month + 1)))).

(** [for (let month = 0; month < 12; month++) monthlyData[monthKey] = {...}] *)
Definition emptyYear (targetYear : string) : Obj.t MonthData :=
  fold_left
    (fun monthlyData month => Obj.set monthlyData (monthKey targetYear month) noActivity)
    (seq 0 12) [].

(** [t.date.substring(0, 7)] *)
Definition monthOfDate (t : Transaction.t) : string :=
  String.substring 0 7 (Format.isoDate (Transaction.date t)).

(** What one transaction adds to its month. *)
Definition count (t : Transaction.t) (m : MonthData) : MonthData :=
  if Storage.isIncome t then
    mkMonth (income m + Transaction.amount t)%float (expenses m) (S (transactions m))
  else
    mkMonth (income m) (expenses m + Transaction.amount t)%float (S (transactions m)).

(** The body of the [forEach]: [if (monthlyData[monthKey]) { ... }] *)
Definition tally (monthlyData : Obj.t MonthData) (t : Transaction.t)
    : Obj.t MonthData :=
  match Obj.get monthlyData (monthOfDate t) with
  | Some m => Obj.set monthlyData (monthOfDate t) (count t m)
  | None => monthlyData
  end.

Definition row (toString : float -> string) (label : string) (m : MonthData)
    : list string :=
  [ label;
    Format.toFixed toString (income m) 2;
    Format.toFixed toString (expenses m) 2;
    Format.toFixed toString (income m - expenses m)%float 2;
    Format.decimal (N.of_nat (transactions m)) ].

Definition addMonth (acc m : MonthData) : MonthData :=
  mkMonth (income acc + income m)%float (expenses acc + expenses m)%float
    (transactions acc + transactions m).

Definition headers : list string :=
  ["Month"; "Income"; "Expenses"; "Net"; "Transactions"].

(** [year || new Date().getFullYear()] *)
Definition targetYearOf (currentYear : float) (year : option float) : float :=
  match year with
  | Some y => if Number.truthy y then y else currentYear
  | None => currentYear
  end.

(** In the text every use of [targetYear] is [String(targetYear)]:
    [yearText] below. *)
Definition exportMonthlySummaryToCSV (toString : float -> string)
    (currentYear : float) (data : FinanceData.t) (year : option float) : string :=
  let targetYear := targetYearOf currentYear year in
  let yearText := Format.ofNumber toString targetYear in
  let monthlyData :=
    fold_left tally
      (List.filter
         (fun t => Format.startsWith yearText (Format.isoDate (Transaction.date t)))
         (FinanceData.transactions data))
      (emptyYear yearText) in
  let rows :=
    map (fun e => row toString (fst e) (snd e)) (Obj.entries monthlyData) in
  let totals := fold_left addMonth (Obj.values monthlyData) noActivity in
  let rows := rows ++ [row toString "TOTAL" totals] in
  JSArray.join newline
    (JSArray.join "," headers :: map (JSArray.join ",") rows).

(** *** The summary, in the words of the specification

    The transactions of a month are those whose date begins with the month's
    key; a month's income, expenses and count are taken over them, and the
    TOTAL row adds up the twelve months. *)









(** *** escapeCSV and the category breakdown *)

Definition quote : ascii := ascii_of_nat 34.

(** [str.includes(c)] for one character. *)
Fixpoint hasChar (c : ascii) (str : string) : bool :=
  match str with
  | EmptyString => false
  | String c' rest => Ascii.eqb c' c || hasChar c rest
  end.

Definition needsQuotes (str : string) : bool :=
  hasChar "," str || hasChar quote str || hasChar (ascii_of_nat 10) str.

(** [str.replace] of every double quote by two of them. *)
Fixpoint doubleQuotes (str : string) : string :=
  match str with
  | EmptyString => EmptyString
  | String c rest =>
      if Ascii.eqb c quote then String quote (String quote (doubleQuotes rest))
      else String c (doubleQuotes rest)
  end.

(** [escapeCSV(value)] for a string or [undefined]; a number is passed as its
    text. *)
Definition escapeCSV (value : option string) : string :=
  match value with
  | None => ""
  | Some str =>
      if needsQuotes str
      then String quote (String.append (doubleQuotes str) (String quote EmptyString))
      else str
  end.

(** [{ income, expenses, count }] *)
Record CategoryData := mkCategory {
  categoryIncome : float;
  categoryExpenses : float;
  categoryCount : nat;
}.

Definition noTransactions : CategoryData := mkCategory 0%float 0%float 0.

(** [count++] and the amount added to its side. *)
Definition bump (t : Transaction.t) (d : CategoryData) : CategoryData :=
  if Storage.isIncome t then
    mkCategory (categoryIncome d + Transaction.amount t)%float (categoryExpenses d)
      (S (categoryCount d))
  else
    mkCategory (categoryIncome d) (categoryExpenses d + Transaction.amount t)%float
      (S (categoryCount d)).

(** The body of the [forEach] of [exportCategoryBreakdownToCSV]. *)
Definition tallyCategory (categoryData : Obj.t CategoryData) (t : Transaction.t)
    : Obj.t CategoryData :=
  let categoryData :=
    match Obj.get categoryData (Transaction.category t) with
    | Some _ => categoryData
    | None => Obj.set categoryData (Transaction.category t) noTransactions
    end in
  match Obj.get categoryData (Transaction.category t) with
  | Some d => Obj.set categoryData (Transaction.category t) (bump t d)
  | None => categoryData
  end.

(** [if (startDate) transactions = transactions.filter(t => t.date >= startDate)],
    and the same for [endDate]. *)
Definition inRange (startDate endDate : option CalDate) (ts : list Transaction.t)
    : list Transaction.t :=
  let ts :=
    match startDate with
    | Some s => List.filter (fun t => Calendar.leb s (Transaction.date t)) ts
    | None => ts
    end in
  match endDate with
  | Some e => List.filter (fun t => Calendar.leb (Transaction.date t) e) ts
  | None => ts
  end.

(** [(a, b) => (b[1].expenses + b[1].income) - (a[1].expenses + a[1].income)] *)
Definition byVolumeDescending (a b : string * CategoryData) : float :=
  ((categoryExpenses (snd b) + categoryIncome (snd b))
   - (categoryExpenses (snd a) + categoryIncome (snd a)))%float.

(** The entries of [categoryData], sorted: the rows before they are written. *)
Definition breakdownRows (startDate endDate : option CalDate) (data : FinanceData.t)
    : list (string * CategoryData) :=
  JSArray.sort byVolumeDescending
    (Obj.entries
       (fold_left tallyCategory
          (inRange startDate endDate (FinanceData.transactions data)) [])).

Definition breakdownLine (toString : float -> string) (e : string * CategoryData)
    : string :=
  JSArray.join ","
    [ escapeCSV (Some (fst e));
      Format.toFixed toString (categoryIncome (snd e)) 2;
      Format.toFixed toString (categoryExpenses (snd e)) 2;
      Format.toFixed toString (categoryIncome (snd e) - categoryExpenses (snd e))%float 2;
      Format.decimal (N.of_nat (categoryCount (snd e))) ].

Definition exportCategoryBreakdownToCSV (toString : float -> string)
    (data : FinanceData.t) (startDate endDate : option CalDate) : string :=
  JSArray.join newline
    (JSArray.join "," ["Category"; "Income"; "Expenses"; "Net"; "Transaction Count"]
     :: map (breakdownLine toString) (breakdownRows startDate endDate data)).

(** What the transactions [ts] add to the category [c], one after the other. *)
Definition accumCategory (c : string) (ts : list Transaction.t) (d : CategoryData)
    : CategoryData :=
  fold_left (fun d t => if String.eqb c (Transaction.category t) then bump t d else d)
    ts d.

(** The category's income, expenses and count over a ledger, in the words of
    the header line. *)
Definition categorySummary (c : string) (ledger : list Transaction.t) : CategoryData :=
  let ofCategory :=
    List.filter (fun t => String.eqb c (Transaction.category t)) ledger in
  mkCategory (Analytics.sumAmounts (List.filter Storage.isIncome ofCategory))
    (Analytics.sumAmounts (List.filter (fun t => negb (Storage.isIncome t)) ofCategory))
    (List.length ofCategory).

Definition demo_ledger : FinanceData.t :=
  FinanceData.mk
    [ Analytics.incomeOf "t-1" (mkDate 2024 1 31) "Income" 2500%float;
      Analytics.expenseOf "t-2" (mkDate 2024 3 5) "Groceries" 82.35%float;
      Analytics.expenseOf "t-3" (mkDate 2023 12 31) "Travel" 900%float;
      Analytics.expenseOf "t-4" (mkDate 2024 3 9) "Fun" 17.7%float;
      Analytics.incomeOf "t-5" (mkDate 2024 12 1) "Income" 0.125%float ]
    [] [] [] "2024-12-01T10:00:00.000Z".

End CsvExport.

(** * Properties *)

(** ** Numbers *)

Lemma SFsub_add_opp (x y : spec_float) :
  SFsub prec emax x y = SFadd prec emax x (SFopp y).
Proof.
  destruct x as [sx|sx| |sx mx ex], y as [sy|sy| |sy my ey]; simpl;
    try reflexivity; destruct sx, sy; reflexivity.
Qed.

(** [x - y] and [x + (-y)] are the same binary64 operation. *)
Lemma float_sub_add_opp (x y : float) : (x - y)%float = (x + (- y))%float.
Proof.
  apply Prim2SF_inj.
  rewrite FloatAxioms.sub_spec, FloatAxioms.add_spec, FloatAxioms.opp_spec.
  apply SFsub_add_opp.
Qed.

(** A difference and its opposite are not both positive: the rounding of a
    negative value is not above zero. *)
Lemma round_negative_not_positive (m e : Z) (l : location) (s0 : bool) :
  SFltb (S754_zero s0) (binary_round_aux prec emax true m e l) = false.
Proof.
  unfold binary_round_aux.
  destruct (shr_fexp prec emax m e l) as [mrs' e'].
  destruct (shr_fexp prec emax _ e' loc_Exact) as [mrs'' e''].
  destruct (shr_m mrs''); [reflexivity| |reflexivity].
  destruct (e'' <=? emax - prec); reflexivity.
Qed.

Lemma normalize_positive (d e : Z) :
  SFltb (S754_zero false) (binary_normalize prec emax d e false) = true -> 0 < d.
Proof.
  destruct d as [|p|p]; simpl.
  - discriminate.
  - lia.
  - unfold binary_round. destruct (shl_align _ _ _) as [mz ez].
    now rewrite round_negative_not_positive.
Qed.

Lemma normalize_negative (d e : Z) :
  d < 0 -> SFltb (S754_zero false) (binary_normalize prec emax d e false) = false.
Proof.
  destruct d as [|p|p]; try lia. intros _. simpl.
  unfold binary_round. destruct (shl_align _ _ _) as [mz ez].
  apply round_negative_not_positive.
Qed.

Lemma SFsub_positive_one_way (a b : spec_float) :
  SFltb (S754_zero false) (SFsub prec emax a b) = true ->
  SFltb (S754_zero false) (SFsub prec emax b a) = false.
Proof.
  destruct a as [sa|sa| |sa ma ea], b as [sb|sb| |sb mb eb];
    try (destruct sa; try destruct sb; intros H; (discriminate H || reflexivity));
    try (destruct sb; intros H; (discriminate H || reflexivity));
    try (intros H; (discriminate H || reflexivity)).
  unfold SFsub. intros H. apply normalize_positive in H.
  rewrite (Z.min_comm eb ea). apply normalize_negative. lia.
Qed.

Lemma float_sub_positive_one_way (a b : float) :
  (0 <? a - b)%float = true -> (0 <? b - a)%float = false.
Proof.
  rewrite !FloatAxioms.ltb_spec, !FloatAxioms.sub_spec.
  apply SFsub_positive_one_way.
Qed.

(** [Math.round] and [toFixed] on values where they are known to surprise. *)
Example Math_round_examples :
  map Number.round [2.5; -2.5; 0.5; -0.5; 0.49999999999999994; 13.205; -0]%float
  = [3; -2; 1; -0; 0; 13; -0]%float.
Proof. vm_compute. reflexivity. Qed.

Example toFixed_examples :
  map (fun x => Format.toFixed (fun _ => "") x 2)
    [1.005; 0.125; 8.345; -0.001; -0; 2400.075; 1234.5678]%float
  = ["1.00"; "0.13"; "8.35"; "-0.00"; "0.00"; "2400.07"; "1234.57"].
Proof. vm_compute. reflexivity. Qed.

(** ** Numbers: the rounding of the binary64 operations

    [SpecFloat] gives every operation as a function on mantissas and
    exponents.  Read over the real numbers, a product or a quotient of two
    doubles that is not too large is a double within [u * |v| + eta] of the
    exact value [v], and so is an integer made a double; [Math.round] moves
    its argument by half a unit at most, and to a double again. *)

Section Rounding.
Import Real64.
#[local] Open Scope R_scope.


Lemma bpow_gt_0 e : 0 < bpow e.
Proof. apply powerRZ_lt. lra. Qed.

Lemma bpow_add a b : bpow (a + b) = bpow a * bpow b.
Proof. apply powerRZ_add. lra. Qed.

Lemma bpow_ge_1 e : (0 <= e)%Z -> 1 <= bpow e.
Proof.
  intros H. unfold bpow. rewrite <- (Z2Nat.id e H), <- pow_powerRZ.
  apply pow_R1_Rle. lra.
Qed.


Lemma bpow_lt a b : (a < b)%Z -> bpow a < bpow b.
Proof.
  intros H. replace b with (a + 1 + (b - a - 1))%Z by lia. rewrite !bpow_add.
  pose proof (bpow_ge_1 (b - a - 1) ltac:(lia)). pose proof (bpow_gt_0 a).
  change (bpow 1) with (2 * 1). nra.
Qed.





Lemma bpow_cancel a b : bpow a * bpow (b - a) = bpow b.
Proof. rewrite <- bpow_add. f_equal. lia. Qed.




(** *** Digits *)

Lemma digits2_pos_bounds (m : positive) :
  (2 ^ (Zpos (digits2_pos m) - 1) <= Zpos m < 2 ^ Zpos (digits2_pos m))%Z.
Proof.
  induction m as [m IH|m IH|]; simpl digits2_pos.
  - rewrite Pos2Z.inj_succ.
    replace (Z.succ (Zpos (digits2_pos m)) - 1)%Z with (Z.succ (Zpos (digits2_pos m) - 1))%Z by lia.
    rewrite !Z.pow_succ_r by lia. lia.
  - rewrite Pos2Z.inj_succ.
    replace (Z.succ (Zpos (digits2_pos m)) - 1)%Z with (Z.succ (Zpos (digits2_pos m) - 1))%Z by lia.
    rewrite !Z.pow_succ_r by lia. lia.
  - simpl. lia.
Qed.


(** *** Locations, alignment and rounding to nearest even *)









Lemma fexp64_eq e : fexp prec emax e = Z.max (e - 53) (-1074).
Proof. reflexivity. Qed.



















Lemma iter_xO_value (m d : positive) :
  Zpos (Pos.iter xO m d) = (Zpos m * 2 ^ Zpos d)%Z.
Proof.
  induction d as [|d IH] using Pos.peano_ind.
  - simpl. lia.
  - rewrite Pos.iter_succ, Pos2Z.inj_succ, Z.pow_succ_r by lia.
    rewrite Pos2Z.inj_xO, IH. lia.
Qed.




(** *** Math.round *)



(** *** The rounding bounds in numbers *)






(** *** Approximations *)








End Rounding.

(** ** Savings goals *)

Section GoalFacts.
Import Goals.

Lemma ledgerSum_snoc (cs : list GoalContribution.t) (c : GoalContribution.t) :
  ledgerSum (cs ++ [c]) = (ledgerSum cs + GoalContribution.amount c)%float.
Proof. unfold ledgerSum. now rewrite fold_left_app. Qed.

Lemma fresh_consistent (g : SavingsGoal.t) : fresh g -> consistent g.
Proof. intros [Hc Hl]. unfold consistent. now rewrite Hc, Hl. Qed.

Lemma createGoal_fresh uuid now name target deadline currency :
  fresh (createGoal uuid now name target deadline currency).
Proof. split; reflexivity. Qed.

Lemma push_contribution_consistent (g : SavingsGoal.t) (c : GoalContribution.t) :
  consistent g ->
  consistent
    (push_contribution c (SavingsGoal.currentAmount g + GoalContribution.amount c)%float g).
Proof.
  unfold consistent. intros H. simpl. now rewrite ledgerSum_snoc, H.
Qed.

Lemma mutate_first_Forall (P : SavingsGoal.t -> Prop) goalId g' gs :
  P g' -> Forall P gs -> Forall P (mutate_first goalId g' gs).
Proof.
  intros Hg'. induction 1 as [|g rest Hg Hrest IH]; simpl.
  - constructor.
  - destruct (has_id goalId g); constructor; assumption.
Qed.

Lemma find_Forall {A} (P : A -> Prop) (p : A -> bool) (l : list A) (x : A) :
  Forall P l -> List.find p l = Some x -> P x.
Proof.
  intros HF Hfind. apply List.find_some in Hfind as [Hin _].
  rewrite List.Forall_forall in HF. now apply HF.
Qed.

Lemma find_mutate_first goalId g' gs g :
  List.find (has_id goalId) gs = Some g ->
  has_id goalId g' = true ->
  List.find (has_id goalId) (mutate_first goalId g' gs) = Some g'.
Proof.
  intros Hfind Hid. induction gs as [|h rest IH]; simpl in *.
  - discriminate.
  - destruct (has_id goalId h) eqn:Hh; simpl.
    + now rewrite Hid.
    + rewrite Hh. now apply IH.
Qed.

Lemma step_consistent (data : FinanceData.t) (op : Op) :
  Forall consistent (FinanceData.savingsGoals data) ->
  Forall consistent (FinanceData.savingsGoals (fst (step data op))).
Proof.
  intros Hall.
  destruct op as [uuid today now goalId amount note|uuid today now goalId amount note];
    simpl.
  - unfold addContribution.
    destruct (List.find _ _) as [g|] eqn:Hfind; simpl; [|assumption].
    apply mutate_first_Forall; [|assumption].
    apply (push_contribution_consistent g
             (GoalContribution.mk uuid amount today note)).
    exact (find_Forall _ _ _ _ Hall Hfind).
  - unfold withdrawFromGoal.
    destruct (List.find _ _) as [g|] eqn:Hfind; simpl; [|assumption].
    destruct (SavingsGoal.currentAmount g <? amount)%float; simpl; [assumption|].
    apply mutate_first_Forall; [|assumption].
    rewrite float_sub_add_opp.
    apply (push_contribution_consistent g
             (GoalContribution.mk uuid (- amount)%float today
                (Some (note_or_default note)))).
    exact (find_Forall _ _ _ _ Hall Hfind).
Qed.

Lemma run_consistent (ops : list Op) (data : FinanceData.t) :
  Forall consistent (FinanceData.savingsGoals data) ->
  Forall consistent (FinanceData.savingsGoals (run data ops)).
Proof.
  revert data. induction ops as [|op ops IH]; intros data H; simpl.
  - exact H.
  - apply IH. now apply step_consistent.
Qed.

Lemma step_success (data : FinanceData.t) (op : Op) :
  success (snd (step data op)) = true ->
  exists g c,
    List.find (has_id (target op)) (FinanceData.savingsGoals data) = Some g /\
    List.find (has_id (target op))
      (FinanceData.savingsGoals (fst (step data op)))
    = Some (push_contribution c
              (SavingsGoal.currentAmount g + GoalContribution.amount c)%float g) /\
    goal (snd (step data op))
    = Some (push_contribution c
              (SavingsGoal.currentAmount g + GoalContribution.amount c)%float g).
Proof.
  destruct op as [uuid today now goalId amount note|uuid today now goalId amount note];
    simpl.
  - unfold addContribution.
    destruct (List.find _ _) as [g|] eqn:Hfind; simpl; [|discriminate].
    intros _. exists g, (GoalContribution.mk uuid amount today note).
    split; [reflexivity|]. split; [|reflexivity].
    apply (find_mutate_first _ _ _ _ Hfind).
    apply List.find_some in Hfind as [_ Hid]. exact Hid.
  - unfold withdrawFromGoal.
    destruct (List.find _ _) as [g|] eqn:Hfind; simpl; [|discriminate].
    destruct (SavingsGoal.currentAmount g <? amount)%float; simpl; [discriminate|].
    intros _.
    exists g, (GoalContribution.mk uuid (- amount)%float today
                 (Some (note_or_default note))).
    rewrite float_sub_add_opp.
    split; [reflexivity|]. split; [|reflexivity].
    apply (find_mutate_first _ _ _ _ Hfind).
    apply List.find_some in Hfind as [_ Hid]. exact Hid.
Qed.

End GoalFacts.

(** C1. Every freshly created goal has [currentAmount] equal to the signed sum
    of its (empty) ledger, and every [addContribution] / [withdrawFromGoal],
    successful or not, on whichever goal, keeps [currentAmount] equal to the
    sum of the ledger of every goal of the document.  A successful call appends
    one entry to the ledger of the goal it found and moves that goal's running
    total by the entry's signed amount, in the document that is saved and in
    the goal that is returned. *)
Theorem goal_currentAmount_is_ledger_sum (data : FinanceData.t) (ops : list Goals.Op) :
  Forall (fun g => Goals.fresh g \/ Goals.consistent g)
    (FinanceData.savingsGoals data) ->
  (forall uuid now name target deadline currency,
      Goals.fresh (Goals.createGoal uuid now name target deadline currency)) /\
  Forall Goals.consistent (FinanceData.savingsGoals (Goals.run data ops)) /\
  (forall d op,
      Goals.success (snd (Goals.step d op)) = true ->
      exists g c,
        List.find (Goals.has_id (Goals.target op)) (FinanceData.savingsGoals d)
        = Some g /\
        List.find (Goals.has_id (Goals.target op))
          (FinanceData.savingsGoals (fst (Goals.step d op)))
        = Some (Goals.push_contribution c
                  (SavingsGoal.currentAmount g + GoalContribution.amount c)%float g) /\
        Goals.goal (snd (Goals.step d op))
        = Some (Goals.push_contribution c
                  (SavingsGoal.currentAmount g + GoalContribution.amount c)%float g)).
Proof.
  intros H. split; [|split].
  - intros. apply createGoal_fresh.
  - apply run_consistent. eapply List.Forall_impl; [|exact H].
    intros g [Hf|Hc]; [now apply fresh_consistent|exact Hc].
  - intros d op. apply step_success.
Qed.

Lemma goal_currentAmount_is_ledger_sum_witness :
  Forall Goals.consistent
    (FinanceData.savingsGoals (Goals.run Goals.demo_data Goals.demo_ops)).
Proof.
  apply (goal_currentAmount_is_ledger_sum Goals.demo_data Goals.demo_ops).
  constructor; [left; split; reflexivity | constructor].
Defined.

(** C3. A withdrawal of more than the goal's [currentAmount] returns
    [{ success: false, error: 'Insufficient funds in goal' }] and leaves the
    document, hence the ledger and [currentAmount] of the goal, as it was. *)
Theorem withdraw_more_than_balance_rejected
    (uuid : string) (today : CalDate) (now : string) (data : FinanceData.t)
    (goalId : string) (amount : float) (note : option string) (g : SavingsGoal.t) :
  List.find (Goals.has_id goalId) (FinanceData.savingsGoals data) = Some g ->
  (SavingsGoal.currentAmount g <? amount)%float = true ->
  Goals.withdrawFromGoal uuid today now data goalId amount note
  = (data, Goals.mkResult false None (Some "Insufficient funds in goal")).
Proof.
  intros Hfind Hlt. unfold Goals.withdrawFromGoal. now rewrite Hfind, Hlt.
Qed.

Lemma withdraw_more_than_balance_rejected_witness :
  Goals.withdrawFromGoal "c-1" (mkDate 2024 6 2) "t1" Goals.demo_data "g-1"
    0.01%float None
  = (Goals.demo_data, Goals.mkResult false None (Some "Insufficient funds in goal")).
Proof.
  apply (withdraw_more_than_balance_rejected _ _ _ _ _ _ _ Goals.demo_goal);
    reflexivity.
Defined.

(** C9. [addContribution] accepts every amount for a goal that exists: it
    succeeds, appends a contribution with exactly that amount and sets
    [currentAmount] to the previous value plus the amount.  On a fresh goal a
    contribution of -50 leaves [currentAmount] = -50, although
    [withdrawFromGoal] refuses to take 50 out of it. *)
Theorem addContribution_takes_any_amount
    (uuid : string) (today : CalDate) (now : string) (data : FinanceData.t)
    (goalId : string) (amount : float) (note : option string) (g : SavingsGoal.t) :
  List.find (Goals.has_id goalId) (FinanceData.savingsGoals data) = Some g ->
  let g' :=
    Goals.push_contribution (GoalContribution.mk uuid amount today note)
      (SavingsGoal.currentAmount g + amount)%float g in
  let res := Goals.addContribution uuid today now data goalId amount note in
  snd res = Goals.mkResult true (Some g') None /\
  List.find (Goals.has_id goalId) (FinanceData.savingsGoals (fst res)) = Some g' /\
  SavingsGoal.contributions g'
  = SavingsGoal.contributions g ++ [GoalContribution.mk uuid amount today note] /\
  SavingsGoal.currentAmount g' = (SavingsGoal.currentAmount g + amount)%float /\
  (let low := Goals.addContribution "c-1" (mkDate 2024 6 2) "t1" Goals.demo_data
                "g-1" (-50)%float None in
   option_map SavingsGoal.currentAmount (Goals.goal (snd low)) = Some (-50)%float /\
   (-50 <? 0)%float = true /\
   Goals.success
     (snd (Goals.withdrawFromGoal "c-1" (mkDate 2024 6 2) "t1" Goals.demo_data
             "g-1" 50%float None)) = false).
Proof.
  intros Hfind g' res. subst res. unfold Goals.addContribution.
  rewrite Hfind. simpl. repeat split.
  apply (find_mutate_first _ _ _ _ Hfind).
  apply List.find_some in Hfind as [_ Hid]. exact Hid.
Qed.

Lemma addContribution_takes_any_amount_witness :
  snd (Goals.addContribution "c-1" (mkDate 2024 6 2) "t1" Goals.demo_data "g-1"
         0%float None)
  = Goals.mkResult true
      (Some (Goals.push_contribution
               (GoalContribution.mk "c-1" 0%float (mkDate 2024 6 2) None)
               (0 + 0)%float Goals.demo_goal)) None.
Proof.
  apply (addContribution_takes_any_amount "c-1" (mkDate 2024 6 2) "t1"
           Goals.demo_data "g-1" 0%float None Goals.demo_goal).
  reflexivity.
Defined.

(** ** Currency conversion *)

(** The default table has a rate for each supported currency. *)
Lemma DEFAULT_EXCHANGE_RATES_binary64 :
  map (fun code => Currency.DEFAULT_EXCHANGE_RATES !! code)
    Currency.SUPPORTED_CURRENCIES
  = map Some
      [1; 0.92; 0.79; 149.50; 1.36; 1.53; 0.88; 7.24; 83.12; 17.15; 4.97; 1320.50]%float.
Proof. vm_compute. reflexivity. Qed.

(** C4. Converting an amount from a currency to the same currency, whatever
    the letter case of the code and whatever the rate table (given or not),
    returns the amount itself, not rounded, and rate 1; so it does between two
    spellings of one code that differ in letter case only. *)
Theorem convertCurrency_same_currency
    (x : float) (C : string) (rates : option (gmap string float)) :
  Currency.convertCurrency x C C rates = Currency.mkConversion x 1%float /\
  (forall C' : string,
      Currency.toUpperCase C' = Currency.toUpperCase C ->
      Currency.convertCurrency x C C' rates = Currency.mkConversion x 1%float /\
      Currency.convertCurrency x C' C rates = Currency.mkConversion x 1%float).
Proof.
  unfold Currency.convertCurrency. split.
  - now rewrite String.eqb_refl.
  - intros C' E. rewrite E. now rewrite String.eqb_refl.
Qed.

Lemma rate_or_1_nonzero (exchangeRates : gmap string float) (code : string) :
  (Currency.rate_or_1 exchangeRates code =? 0)%float = false.
Proof.
  unfold Currency.rate_or_1.
  destruct (exchangeRates !! code) as [r|]; [|reflexivity].
  destruct (Number.truthy r) eqn:Ht; [|reflexivity].
  unfold Number.truthy in Ht.
  apply andb_prop in Ht as [Hz _]. now apply negb_true_iff in Hz.
Qed.

(** C10. For two different currencies [convertCurrency] divides by
    [exchangeRates[from] || 1], which is 1 when the table has no entry for the
    currency or maps it to a zero, is the table's rate otherwise, and is never
    zero; the same holds for the target rate.  The function is total: it
    returns the two rounded numbers for every amount and every table. *)
Theorem convertCurrency_divisor_never_zero
    (amount : float) (fromCurrency toCurrency : string)
    (rates : option (gmap string float)) :
  let exchangeRates := default Currency.DEFAULT_EXCHANGE_RATES rates in
  let from := Currency.toUpperCase fromCurrency in
  let to := Currency.toUpperCase toCurrency in
  let fromRate := Currency.rate_or_1 exchangeRates from in
  let toRate := Currency.rate_or_1 exchangeRates to in
  from <> to ->
  (forall code,
      exchangeRates !! code = None \/
      (exists r, exchangeRates !! code = Some r /\ (r =? 0)%float = true) ->
      Currency.rate_or_1 exchangeRates code = 1%float) /\
  (forall code r,
      exchangeRates !! code = Some r -> Number.truthy r = true ->
      Currency.rate_or_1 exchangeRates code = r) /\
  (fromRate =? 0)%float = false /\
  (toRate =? 0)%float = false /\
  Currency.convertCurrency amount fromCurrency toCurrency rates
  = Currency.mkConversion
      (Number.round (amount / fromRate * toRate * 100) / 100)%float
      (Number.round (toRate / fromRate * 10000) / 10000)%float.
Proof.
  intros exchangeRates from to fromRate toRate Hne.
  split; [|split; [|split; [|split]]].
  - intros code [Hnone|[r [Hsome Hz]]]; unfold Currency.rate_or_1.
    + now rewrite Hnone.
    + rewrite Hsome. simpl. unfold Number.truthy. now rewrite Hz.
  - intros code r Hsome Ht. unfold Currency.rate_or_1. rewrite Hsome.
    simpl. now rewrite Ht.
  - apply rate_or_1_nonzero.
  - apply rate_or_1_nonzero.
  - unfold Currency.convertCurrency. fold exchangeRates from to.
    destruct (String.eqb from to) eqn:E.
    + apply String.eqb_eq in E. contradiction.
    + reflexivity.
Qed.

Lemma convertCurrency_divisor_never_zero_witness :
  Currency.convertCurrency 100%float "eur" "XYZ"
    (Some {[ "EUR" := 0%float; "XYZ" := 2%float ]})
  = Currency.mkConversion 200%float 2%float.
Proof.
  refine (eq_trans
            (proj2 (proj2 (proj2 (proj2
               (convertCurrency_divisor_never_zero 100%float "eur" "XYZ"
                  (Some {[ "EUR" := 0%float; "XYZ" := 2%float ]}) _))))) _).
  - discriminate.
  - vm_compute. reflexivity.
Defined.

(** *** The round trip on binary64 *)

Section RoundTrip.
Import Real64.
#[local] Open Scope R_scope.

















End RoundTrip.





(** ** Recurring transactions *)

(** *** The calendar *)

Lemma leb_rank (a b : CalDate) :
  Calendar.plausible a -> Calendar.plausible b ->
  Calendar.leb a b = (Calendar.rank a <=? Calendar.rank b).
Proof.
  unfold Calendar.plausible, Calendar.leb, Calendar.rank.
  intros [Hma Hda] [Hmb Hdb].
  repeat match goal with
         | |- context [?x <? ?y] => destruct (Z.ltb_spec x y)
         end;
    destruct (Z.leb_spec (day a) (day b));
    symmetry; first [apply Z.leb_le; lia | apply Z.leb_gt; lia].
Qed.



Lemma daysInMonth_bounds (y m : Z) : 28 <= Calendar.daysInMonth y m <= 31.
Proof.
  unfold Calendar.daysInMonth.
  destruct (m =? 2); [destruct (Calendar.isLeapYear y); lia|].
  destruct ((m =? 4) || (m =? 6) || (m =? 9) || (m =? 11)); lia.
Qed.


Lemma valid_plausible (d : CalDate) : Calendar.valid d -> Calendar.plausible d.
Proof.
  unfold Calendar.valid, Calendar.plausible.
  pose proof (daysInMonth_bounds (year d) (month d)). lia.
Qed.

(** Day by day from the first of a month, within the month. *)
Lemma nextDay_within (y m : Z) (k : nat) :
  Z.of_nat k + 1 <= Calendar.daysInMonth y m ->
  Nat.iter k Calendar.nextDay (mkDate y m 1) = mkDate y m (1 + Z.of_nat k).
Proof.
  induction k as [|k IH]; intros Hk; [reflexivity|].
  rewrite Nat.iter_succ, IH by lia. unfold Calendar.nextDay. cbn [year month day].
  destruct (Z.ltb_spec (1 + Z.of_nat k) (Calendar.daysInMonth y m)); [|lia].
  f_equal. lia.
Qed.

(** [MakeDay] carries a day of the month up to four weeks past the end of the
    month into the next month. *)
Lemma makeDay_makeDate (y m d : Z) :
  1 <= d <= Calendar.daysInMonth y m + 28 ->
  Calendar.makeDay y m d = Calendar.makeDate y m d.
Proof.
  intros Hd. pose proof (daysInMonth_bounds y m) as Hdim.
  unfold Calendar.makeDay, Calendar.addDays, Calendar.makeDate.
  destruct (Z.leb_spec 0 (d - 1)); [|lia].
  destruct (Z.ltb_spec (Calendar.daysInMonth y m) d) as [Hover|Hin].
  - replace (Z.to_nat (d - 1))
      with (Z.to_nat (d - 1 - Calendar.daysInMonth y m)
            + S (Z.to_nat (Calendar.daysInMonth y m - 1)))%nat by lia.
    rewrite Nat.iter_add, Nat.iter_succ.
    rewrite nextDay_within by lia.
    unfold Calendar.nextDay at 2. cbn [year month day].
    destruct (Z.ltb_spec (1 + Z.of_nat (Z.to_nat (Calendar.daysInMonth y m - 1)))
                (Calendar.daysInMonth y m)); [lia|].
    destruct (Calendar.nextMonth y m) as [y' m'].
    pose proof (daysInMonth_bounds y' m') as Hdim'.
    rewrite nextDay_within by lia. f_equal. lia.
  - rewrite nextDay_within by lia. f_equal. lia.
Qed.

(** *** The time zone *)

Lemma steadyEast_there_and_back (tz : TimeZone.t) :
  TimeZone.steadyEast tz ->
  exists time,
    (forall d, TimeZone.toLocal tz d 0 = (d, time)) /\
    (forall d, TimeZone.toUTC tz d time = (d, 0)).
Proof.
  intros (offset & Hrange & Hfixed). exists offset. split; intros d.
  - unfold TimeZone.toLocal, TimeZone.shift.
    rewrite (proj1 (Hfixed d 0)). cbn [Z.add].
    rewrite Z.div_small, Z.mod_small by exact Hrange. reflexivity.
  - unfold TimeZone.toUTC, TimeZone.shift.
    rewrite (proj2 (Hfixed d offset)), Z.add_opp_diag_r. reflexivity.
Qed.

(** Where local time is a fixed offset of less than a day ahead of UTC, the
    next due date of a date that exists is the step on the calendar. *)
Lemma calculateNextDueDate_steady (tz : TimeZone.t) (d : CalDate) (f : Frequency) :
  TimeZone.steadyEast tz -> Calendar.valid d ->
  Recurring.calculateNextDueDate tz d f = Recurring.nextOnCalendar d f.
Proof.
  intros Hsteady Hv.
  destruct (steadyEast_there_and_back tz Hsteady) as (time & Hlocal & Hutc).
  unfold Recurring.calculateNextDueDate. rewrite Hlocal.
  destruct d as [y m dd]. destruct Hv as [Hm Hd]. cbn [year month day] in Hm, Hd.
  pose proof (daysInMonth_bounds y m) as Hdim.
  rewrite Hutc. cbn [fst]. unfold Recurring.nextOnCalendar.
  destruct f.
  - apply makeDay_makeDate. lia.
  - apply makeDay_makeDate. lia.
  - destruct (Calendar.nextMonth y m) as [y' m'].
    pose proof (daysInMonth_bounds y' m'). apply makeDay_makeDate. lia.
  - pose proof (daysInMonth_bounds (y + 1) m). apply makeDay_makeDate. lia.
Qed.

(** A day of the month up to four weeks past the end of the month is carried
    into the next month, to a date that exists and is not before it. *)
Lemma makeDate_valid_rank (y m d : Z) :
  1 <= m <= 12 -> 1 <= d <= Calendar.daysInMonth y m + 28 ->
  Calendar.valid (Calendar.makeDate y m d) /\
  (y * 12 + m) * 32 + d <= Calendar.rank (Calendar.makeDate y m d).
Proof.
  intros Hm Hd. unfold Calendar.makeDate.
  pose proof (daysInMonth_bounds y m) as Hdim.
  destruct (Z.ltb_spec (Calendar.daysInMonth y m) d) as [Hover|Hin].
  - unfold Calendar.nextMonth.
    destruct (Z.eqb_spec m 12) as [->|Hne];
      unfold Calendar.valid, Calendar.rank; simpl.
    + pose proof (daysInMonth_bounds (y + 1) 1). lia.
    + pose proof (daysInMonth_bounds y (m + 1)). lia.
  - unfold Calendar.valid, Calendar.rank; simpl. lia.
Qed.

Lemma nextOnCalendar_valid_later (d : CalDate) (f : Frequency) :
  Calendar.valid d ->
  Calendar.valid (Recurring.nextOnCalendar d f) /\
  Calendar.rank d < Calendar.rank (Recurring.nextOnCalendar d f).
Proof.
  destruct d as [y m dd]. unfold Calendar.valid at 1. simpl. intros [Hm Hd].
  pose proof (daysInMonth_bounds y m) as Hdim.
  unfold Calendar.rank at 1. simpl.
  destruct f; simpl.
  - destruct (makeDate_valid_rank y m (dd + 1)) as [Hv Hr]; [lia|lia|].
    split; [exact Hv|lia].
  - destruct (makeDate_valid_rank y m (dd + 7)) as [Hv Hr]; [lia|lia|].
    split; [exact Hv|lia].
  - unfold Calendar.nextMonth. destruct (Z.eqb_spec m 12) as [->|Hne].
    + pose proof (daysInMonth_bounds (y + 1) 1).
      destruct (makeDate_valid_rank (y + 1) 1 dd) as [Hv Hr]; [lia|lia|].
      split; [exact Hv|lia].
    + pose proof (daysInMonth_bounds y (m + 1)).
      destruct (makeDate_valid_rank y (m + 1) dd) as [Hv Hr]; [lia|lia|].
      split; [exact Hv|lia].
  - pose proof (daysInMonth_bounds (y + 1) m).
    destruct (makeDate_valid_rank (y + 1) m dd) as [Hv Hr]; [lia|lia|].
    split; [exact Hv|lia].
Qed.

Lemma next_valid_later (tz : TimeZone.t) (d : CalDate) (f : Frequency) :
  TimeZone.steadyEast tz -> Calendar.valid d ->
  Calendar.valid (Recurring.calculateNextDueDate tz d f) /\
  Calendar.rank d < Calendar.rank (Recurring.calculateNextDueDate tz d f).
Proof.
  intros Hsteady Hv. rewrite calculateNextDueDate_steady by assumption.
  now apply nextOnCalendar_valid_later.
Qed.


(** *** The loop *)

Section Loop.
Context (tz : TimeZone.t).


Lemma catchUp_not_due fuel uuid today r st :
  Calendar.leb (RecurringTransaction.nextDue r) today = false ->
  Recurring.catchUp tz fuel uuid today r st = Some (r, st).
Proof. intros H. destruct fuel; simpl; now rewrite H. Qed.

Lemma advanced_active (n : nat) (r : RecurringTransaction.t) :
  RecurringTransaction.active (Recurring.advanced tz n r)
  = RecurringTransaction.active r.
Proof. revert r. induction n as [|n IH]; intros r; simpl; [reflexivity|]. now rewrite IH. Qed.

(** What the loop over one entry has done when it ends. *)
Lemma catchUp_result fuel uuid today r st r' st' :
  Recurring.catchUp tz fuel uuid today r st = Some (r', st') ->
  Calendar.leb (RecurringTransaction.nextDue r') today = false /\
  exists (n : nat) (made : list Transaction.t),
    r' = Recurring.advanced tz n r /\
    List.length made = n /\
    Recurring.drawn st' = (Recurring.drawn st + n)%nat /\
    Recurring.ledger st' = Recurring.ledger st ++ made /\
    Recurring.processedTransactions st' = Recurring.processedTransactions st ++ made /\
    Forall (fun t => Calendar.leb (Transaction.date t) today = true) made.
Proof.
  revert r st. induction fuel as [|fuel IH]; intros r st; simpl;
    destruct (Calendar.leb (RecurringTransaction.nextDue r) today) eqn:Hdue;
    try discriminate.
  - intros [= <- <-]. split; [exact Hdue|]. exists O, [].
    rewrite !app_nil_r, Nat.add_0_r. repeat split. constructor.
  - intros H. apply IH in H as (Hlate & n & made & -> & Hlen & Hd & Hl & Hp & Hall).
    split; [exact Hlate|].
    exists (S n), (Recurring.materialize (uuid (Recurring.drawn st)) r :: made).
    simpl in Hd, Hl, Hp. rewrite <- app_assoc in Hl, Hp. simpl in Hl, Hp.
    repeat split; try assumption.
    + simpl. now rewrite Hlen.
    + lia.
    + constructor; [exact Hdue|exact Hall].
  - intros [= <- <-]. split; [exact Hdue|]. exists O, [].
    rewrite !app_nil_r, Nat.add_0_r. repeat split. constructor.
Qed.

Lemma forEach_result fuel uuid today rs st rs' st' :
  Recurring.forEach tz fuel uuid today rs st = Some (rs', st') ->
  Forall2 (Recurring.settledFrom tz today) rs rs' /\
  exists made : list Transaction.t,
    Recurring.drawn st' = (Recurring.drawn st + List.length made)%nat /\
    Recurring.ledger st' = Recurring.ledger st ++ made /\
    Recurring.processedTransactions st' = Recurring.processedTransactions st ++ made /\
    Forall (fun t => Calendar.leb (Transaction.date t) today = true) made /\
    (made = [] -> rs' = rs).
Proof.
  revert st rs' st'. induction rs as [|r rs IH]; intros st rs' st'; simpl.
  - intros [= <- <-]. split; [constructor|]. exists [].
    rewrite !app_nil_r. simpl. rewrite Nat.add_0_r. repeat split. constructor.
  - destruct (RecurringTransaction.active r) eqn:Hact; simpl.
    + destruct (Recurring.catchUp tz fuel uuid today r st) as [[r1 st1]|] eqn:Hc;
        [|discriminate].
      destruct (Recurring.forEach tz fuel uuid today rs st1) as [[rest st2]|] eqn:Hf;
        [|discriminate].
      intros [= <- <-].
      apply catchUp_result in Hc
        as (Hlate & n & made1 & -> & Hn & Hd1 & Hl1 & Hp1 & Hall1).
      apply IH in Hf as (Hrest & made2 & Hd2 & Hl2 & Hp2 & Hall2 & Hsame).
      split.
      * constructor; [|exact Hrest]. unfold Recurring.settledFrom. rewrite Hact. eauto.
      * exists (made1 ++ made2). rewrite Hl2, Hp2, Hl1, Hp1, <- !app_assoc.
        repeat split.
        -- rewrite Hd2, Hd1, length_app. lia.
        -- now apply Forall_app.
        -- intros E. apply app_eq_nil in E as [E1 E2].
           rewrite (Hsame E2). subst made1. simpl in Hn. now subst n.
    + destruct (Recurring.forEach tz fuel uuid today rs st) as [[rest st2]|] eqn:Hf;
        [|discriminate].
      intros [= <- <-].
      apply IH in Hf as (Hrest & made2 & Hd2 & Hl2 & Hp2 & Hall2 & Hsame).
      split.
      * constructor; [|exact Hrest]. unfold Recurring.settledFrom. now rewrite Hact.
      * exists made2. repeat split; try assumption.
        intros E. now rewrite (Hsame E).
Qed.


(** Nothing is due: the loop leaves the entries and the run as they are. *)
Lemma forEach_nothing_due fuel uuid today rs st :
  Forall (fun r => RecurringTransaction.active r = true ->
                   Calendar.leb (RecurringTransaction.nextDue r) today = false) rs ->
  Recurring.forEach tz fuel uuid today rs st = Some (rs, st).
Proof.
  induction 1 as [|r rs Hr Hrs IH]; simpl; [reflexivity|].
  destruct (RecurringTransaction.active r); simpl.
  - rewrite catchUp_not_due by now apply Hr. now rewrite IH.
  - now rewrite IH.
Qed.

Lemma settled_nothing_due today rs rs' :
  Forall2 (Recurring.settledFrom tz today) rs rs' ->
  Forall (fun r => RecurringTransaction.active r = true ->
                   Calendar.leb (RecurringTransaction.nextDue r) today = false) rs'.
Proof.
  induction 1 as [|r r' rs rs' Hr Hrs IH]; constructor; [|exact IH].
  unfold Recurring.settledFrom in Hr. destruct (RecurringTransaction.active r) eqn:Hact.
  - now destruct Hr.
  - subst r'. congruence.
Qed.

Lemma process_nothing_due fuel uuid today now (d : FinanceData.t) :
  Forall (fun r => RecurringTransaction.active r = true ->
                   Calendar.leb (RecurringTransaction.nextDue r) today = false)
    (FinanceData.recurringTransactions d) ->
  Recurring.processRecurringTransactions tz fuel uuid today now d
  = Some (d, Recurring.mkProcessed 0 []).
Proof.
  intros H. unfold Recurring.processRecurringTransactions.
  rewrite forEach_nothing_due by exact H. simpl. now destruct d.
Qed.

Context (Hsteady : TimeZone.steadyEast tz).


Lemma advance_nextDue_valid (r : RecurringTransaction.t) :
  Calendar.valid (RecurringTransaction.nextDue r) ->
  Calendar.valid (RecurringTransaction.nextDue (Recurring.advance tz r)) /\
  Calendar.rank (RecurringTransaction.nextDue r)
  < Calendar.rank (RecurringTransaction.nextDue (Recurring.advance tz r)).
Proof. intros H. simpl. now apply next_valid_later. Qed.

Lemma catchUp_enough_fuel fuel uuid today r st :
  Calendar.plausible today ->
  Calendar.valid (RecurringTransaction.nextDue r) ->
  Calendar.rank today - Calendar.rank (RecurringTransaction.nextDue r) + 1
  <= Z.of_nat fuel ->
  exists out, Recurring.catchUp tz fuel uuid today r st = Some out.
Proof.
  intros Htoday. revert r st.
  induction fuel as [|fuel IH]; intros r st Hv Hfuel; simpl;
    rewrite (leb_rank _ _ (valid_plausible _ Hv) Htoday);
    destruct (Z.leb_spec (Calendar.rank (RecurringTransaction.nextDue r))
                (Calendar.rank today)) as [Hle|Hgt].
  - lia.
  - eauto.
  - destruct (advance_nextDue_valid r Hv) as [Hv' Hr'].
    apply IH; [exact Hv'|lia].
  - eauto.
Qed.

Lemma forEach_enough_fuel fuel uuid today rs st :
  Calendar.plausible today ->
  Forall (fun r => Calendar.valid (RecurringTransaction.nextDue r)) rs ->
  (Recurring.roundsNeeded today rs <= fuel)%nat ->
  exists out, Recurring.forEach tz fuel uuid today rs st = Some out.
Proof.
  intros Htoday Hall. revert st.
  induction Hall as [|r rs Hr Hrs IH]; intros st Hfuel; simpl; [eauto|].
  simpl in Hfuel.
  assert (Hrest : (Recurring.roundsNeeded today rs <= fuel)%nat) by lia.
  destruct (RecurringTransaction.active r); simpl.
  - destruct (catchUp_enough_fuel fuel uuid today r st Htoday Hr) as [[r1 st1] Hc].
    { unfold Recurring.roundsFor in Hfuel. lia. }
    rewrite Hc. destruct (IH st1 Hrest) as [[rest st2] Hf]. rewrite Hf. eauto.
  - destruct (IH st Hrest) as [[rest st2] Hf]. rewrite Hf. eauto.
Qed.


End Loop.





(** From the 29th on [setMonth] can run past the end of the month: in UTC an
    entry that starts on 2024-01-30 is next due on 2024-03-01 (30 February),
    and on 2024-04-30 the call makes three transactions. *)
Example monthly_from_the_30th :
  option_map
    (fun res =>
       (map Transaction.date (Recurring.transactions (snd res)),
        map RecurringTransaction.nextDue (FinanceData.recurringTransactions (fst res))))
    (Recurring.processRecurringTransactions TimeZone.UTC 10 Recurring.demo_uuid
       (mkDate 2024 4 30) "2024-04-30T08:00:00.000Z"
       (Recurring.only (Recurring.demo_rent (mkDate 2024 1 30))))
  = Some ([mkDate 2024 1 30; mkDate 2024 3 1; mkDate 2024 4 1], [mkDate 2024 5 1]).
Proof. vm_compute. reflexivity. Qed.

(** Behind UTC the local date of midnight UTC is the day before, and the
    setter works on that day: five hours behind, an entry that starts on
    2024-01-01 is due on 2024-02-01 (31 January, local) and then on 2024-03-03
    (31 February, local), and on 2024-04-01 the call makes three
    transactions. *)
Example monthly_five_hours_behind_UTC :
  option_map
    (fun res =>
       (map Transaction.date (Recurring.transactions (snd res)),
        map RecurringTransaction.nextDue (FinanceData.recurringTransactions (fst res))))
    (Recurring.processRecurringTransactions (TimeZone.fixed (-300)) 10
       Recurring.demo_uuid (mkDate 2024 4 1) "2024-04-01T08:00:00.000Z"
       (Recurring.only (Recurring.demo_rent (mkDate 2024 1 1))))
  = Some ([mkDate 2024 1 1; mkDate 2024 2 1; mkDate 2024 3 3], [mkDate 2024 4 3]).
Proof. vm_compute. reflexivity. Qed.

(** ** Spending analysis and budget alerts *)








(** *** Sorting with a comparator *)

Section SortFacts.
Context {A : Type} (cmp : A -> A -> float).
Hypothesis cmp_one_way :
  forall x y, (0 <? cmp y x)%float = true -> (0 <? cmp x y)%float = false.

Lemma insertBy_permutation (x : A) (l : list A) :
  Permutation (x :: l) (JSArray.insertBy cmp x l).
Proof.
  induction l as [|y l IH]; simpl; [reflexivity|].
  destruct (0 <? cmp y x)%float; [reflexivity|].
  rewrite perm_swap. now constructor.
Qed.

Lemma sort_from_permutation (l acc : list A) :
  Permutation (acc ++ l)
    (fold_left (fun sorted x => JSArray.insertBy cmp x sorted) l acc).
Proof.
  revert acc. induction l as [|x l IH]; intros acc; simpl.
  - now rewrite app_nil_r.
  - eapply Permutation_trans; [|apply IH].
    eapply Permutation_trans; [symmetry; apply Permutation_middle|].
    apply (Permutation_app_tail l (insertBy_permutation x acc)).
Qed.

Lemma sort_permutation (l : list A) : Permutation l (JSArray.sort cmp l).
Proof. apply (sort_from_permutation l []). Qed.

Lemma insertBy_HdRel (x a : A) (l : list A) :
  JSArray.mayPrecede cmp a x -> HdRel (JSArray.mayPrecede cmp) a l ->
  HdRel (JSArray.mayPrecede cmp) a (JSArray.insertBy cmp x l).
Proof.
  intros Hax Hl. destruct l as [|y l]; simpl.
  - now constructor.
  - destruct (0 <? cmp y x)%float; constructor; [exact Hax|].
    now inversion Hl.
Qed.

Lemma insertBy_sorted (x : A) (l : list A) :
  Sorted (JSArray.mayPrecede cmp) l -> Sorted (JSArray.mayPrecede cmp) (JSArray.insertBy cmp x l).
Proof.
  induction 1 as [|y l Hs IH Hhd]; simpl.
  - repeat constructor.
  - destruct (0 <? cmp y x)%float eqn:E.
    + constructor; [now constructor|]. constructor. now apply cmp_one_way.
    + constructor; [exact IH|]. now apply insertBy_HdRel.
Qed.

Lemma sort_from_sorted (l acc : list A) :
  Sorted (JSArray.mayPrecede cmp) acc ->
  Sorted (JSArray.mayPrecede cmp)
    (fold_left (fun sorted x => JSArray.insertBy cmp x sorted) l acc).
Proof.
  revert acc. induction l as [|x l IH]; intros acc Hacc; simpl; [exact Hacc|].
  apply IH. now apply insertBy_sorted.
Qed.

Lemma sort_sorted (l : list A) : Sorted (JSArray.mayPrecede cmp) (JSArray.sort cmp l).
Proof. apply sort_from_sorted. constructor. Qed.

Lemma firstn_sorted (n : nat) (l : list A) :
  Sorted (JSArray.mayPrecede cmp) l -> Sorted (JSArray.mayPrecede cmp) (firstn n l).
Proof.
  revert l. induction n as [|n IH]; intros l Hs; simpl; [constructor|].
  destruct Hs as [|y l Hs Hhd]; [constructor|].
  constructor; [now apply IH|].
  destruct n; simpl; [constructor|].
  destruct Hhd; constructor. assumption.
Qed.

End SortFacts.





(** ** The monthly summary *)





(** Objects with distinct keys. *)
Section Keyed.
Context {V : Type}.

Lemma get_none_onKey (o : Obj.t V) (k : string) (f : V -> V) :
  Obj.get o k = None -> map (Obj.onKey k f) o = o.
Proof.
  induction o as [|[k' v] o IH]; simpl; [reflexivity|].
  unfold Obj.onKey at 1. simpl. destruct (String.eqb k' k); [discriminate|].
  intros H. now rewrite IH.
Qed.

Lemma get_none_notin (o : Obj.t V) (k : string) :
  ~ In k (map fst o) -> Obj.get o k = None.
Proof.
  induction o as [|[k' v] o IH]; simpl; [reflexivity|].
  intros H. destruct (String.eqb_spec k' k) as [->|Hne]; [tauto|].
  apply IH. tauto.
Qed.

Lemma set_onKey (o : Obj.t V) (k : string) (f : V -> V) (v : V) :
  List.NoDup (map fst o) -> Obj.get o k = Some v ->
  Obj.set o k (f v) = map (Obj.onKey k f) o.
Proof.
  induction o as [|[k' v'] o IH]; simpl; [discriminate|].
  intros Hnd. inversion Hnd as [|? ? Hnotin Hnd']; subst.
  unfold Obj.onKey at 1. simpl.
  destruct (String.eqb_spec k' k) as [->|Hne].
  - intros [= ->]. now rewrite get_none_onKey by now apply get_none_notin.
  - intros H. now rewrite IH.
Qed.

Lemma set_fresh (o : Obj.t V) (k : string) (v : V) :
  Obj.get o k = None -> Obj.set o k v = o ++ [(k, v)].
Proof.
  induction o as [|[k' v'] o IH]; simpl; [reflexivity|].
  destruct (String.eqb k' k); [discriminate|].
  intros H. now rewrite IH.
Qed.


End Keyed.

Section MonthlySummary.
Import CsvExport.


















End MonthlySummary.


(** The summary of a small ledger for 2024; the expense of 2023 is left out,
    and TOTAL rounds the sums, not the texts above it. *)
Example monthly_summary_2024 :
  CsvExport.exportMonthlySummaryToCSV (fun _ => "") 2026%float
    CsvExport.demo_ledger (Some 2024%float)
  = JSArray.join CsvExport.newline
      [ "Month,Income,Expenses,Net,Transactions";
        "2024-01,2500.00,0.00,2500.00,1";
        "2024-02,0.00,0.00,0.00,0";
        "2024-03,0.00,100.05,-100.05,2";
        "2024-04,0.00,0.00,0.00,0";
        "2024-05,0.00,0.00,0.00,0";
        "2024-06,0.00,0.00,0.00,0";
        "2024-07,0.00,0.00,0.00,0";
        "2024-08,0.00,0.00,0.00,0";
        "2024-09,0.00,0.00,0.00,0";
        "2024-10,0.00,0.00,0.00,0";
        "2024-11,0.00,0.00,0.00,0";
        "2024-12,0.13,0.00,0.13,1";
        "TOTAL,2500.13,100.05,2400.07,4" ].
Proof. vm_compute. reflexivity. Qed.

(** * Further properties *)

(** ** Numbers: the sign of a difference *)

Lemma shl_align_value (m : positive) (e ez : Z) :
  ez <= e -> Zpos (fst (shl_align m e ez)) = Zpos m * 2 ^ (e - ez).
Proof.
  intros H. unfold shl_align.
  destruct (ez - e) as [|d|d] eqn:E; try lia.
  - replace (e - ez) with 0 by lia. simpl. lia.
  - replace (e - ez) with (Zpos d) by lia. apply iter_xO_value.
Qed.

(** Canonical mantissas: the exponent decides, then the mantissa. *)
Lemma bounded_lt (m1 m2 : positive) (e1 e2 : Z) :
  SpecFloat.bounded prec emax m1 e1 = true -> SpecFloat.bounded prec emax m2 e2 = true ->
  e1 < e2 -> Zpos m1 < Zpos m2 * 2 ^ (e2 - e1).
Proof.
  unfold SpecFloat.bounded, canonical_mantissa, fexp, FloatOps.prec, FloatOps.emax, SpecFloat.emin.
  intros H1 H2 Hlt.
  apply andb_prop in H1 as [H1 _]. apply andb_prop in H2 as [H2 _].
  apply Z.eqb_eq in H1, H2.
  pose proof (digits2_pos_bounds m1) as [_ B1].
  pose proof (digits2_pos_bounds m2) as [B2 _].
  assert (D1 : Zpos (digits2_pos m1) <= 53) by lia.
  assert (D2 : Zpos (digits2_pos m2) = 53) by lia.
  rewrite D2 in B2. simpl in B2.
  assert (Zpos m1 < 2 ^ 53).
  { eapply Z.lt_le_trans; [exact B1|]. apply Z.pow_le_mono_r; lia. }
  assert (2 ^ 1 <= 2 ^ (e2 - e1)) by (apply Z.pow_le_mono_r; lia).
  change (2 ^ 53) with 9007199254740992 in *. change (2 ^ 1) with 2 in *. nia.
Qed.

Lemma round_positive_not_negative (m e : Z) (l : location) (s0 : bool) :
  SFltb (binary_round_aux prec emax false m e l) (S754_zero s0) = false.
Proof.
  unfold binary_round_aux.
  destruct (shr_fexp prec emax m e l) as [mrs' e'].
  destruct (shr_fexp prec emax _ e' loc_Exact) as [mrs'' e''].
  destruct (shr_m mrs''); [reflexivity| |reflexivity].
  destruct (e'' <=? emax - prec); reflexivity.
Qed.

Lemma normalize_not_negative (d e : Z) (s0 : bool) :
  0 <= d -> SFltb (binary_normalize prec emax d e false) (S754_zero s0) = false.
Proof.
  destruct d as [|p|p]; try lia; intros _; simpl; [reflexivity|].
  unfold binary_round. destruct (shl_align _ _ _) as [mz ez].
  apply round_positive_not_negative.
Qed.

Lemma SFsub_not_negative (c a : spec_float) :
  SpecFloat.valid_binary prec emax c = true -> SpecFloat.valid_binary prec emax a = true ->
  SFltb c a = false ->
  SFltb (SFsub prec emax c a) (S754_zero false) = false.
Proof.
  intros Vc Va.
  destruct c as [sc|sc| |sc mc ec], a as [sa|sa| |sa ma ea];
    try (destruct sc; try destruct sa; intros H; (discriminate H || reflexivity));
    try (destruct sa; intros H; (discriminate H || reflexivity));
    try (intros H; (discriminate H || reflexivity)).
  simpl in Vc, Va. intros H. unfold SFltb, SFcompare in H. unfold SFsub.
  apply normalize_not_negative.
  destruct (Z.min_spec ec ea) as [[Hlt Hmin]|[Hle Hmin]]; rewrite Hmin.
  - rewrite (shl_align_value mc ec ec), (shl_align_value ma ea ec) by lia.
    rewrite Z.sub_diag, Z.mul_1_r.
    pose proof (bounded_lt mc ma ec ea Vc Va Hlt) as Hb.
    apply Z.compare_lt_iff in Hlt. rewrite Hlt in H.
    destruct sc, sa; simpl; try discriminate H; lia.
  - rewrite (shl_align_value mc ec ea), (shl_align_value ma ea ea) by lia.
    rewrite Z.sub_diag, Z.mul_1_r.
    destruct (Z.eq_dec ec ea) as [->|Hne].
    + rewrite Z.sub_diag, Z.mul_1_r. rewrite Z.compare_refl in H.
      change (Pos.compare_cont Eq mc ma) with (Pos.compare mc ma) in H.
      destruct sc, sa; simpl; try discriminate H; try lia.
      * destruct (Pos.compare_spec mc ma); try discriminate H; lia.
      * destruct (Pos.compare_spec mc ma); try discriminate H; lia.
    + assert (Hgt : ea < ec) by lia.
      pose proof (bounded_lt ma mc ea ec Va Vc Hgt) as Hb.
      apply Z.compare_gt_iff in Hgt. rewrite Hgt in H.
      destruct sc, sa; simpl; try discriminate H; lia.
Qed.

Lemma float_sub_not_negative (c a : float) :
  (c <? a)%float = false -> (c - a <? 0)%float = false.
Proof.
  rewrite !FloatAxioms.ltb_spec, FloatAxioms.sub_spec.
  apply SFsub_not_negative; apply Prim2SF_valid.
Qed.

(** ** Savings goals: lookup, withdrawal, update, deletion, summary *)

Lemma findIndex_none {A : Type} (p : A -> bool) (xs : list A) :
  List.find p xs = None -> ArrayOps.findIndex p xs = None.
Proof.
  induction xs as [|x xs IH]; simpl; [reflexivity|].
  destruct (p x); [discriminate|]. intros H. now rewrite IH.
Qed.

(** [findIndex] finds the element that [find] finds, with nothing matching
    before it. *)
Lemma findIndex_some {A : Type} (p : A -> bool) (xs : list A) (x : A) :
  List.find p xs = Some x ->
  exists before after,
    xs = before ++ x :: after /\
    Forall (fun y => p y = false) before /\
    ArrayOps.findIndex p xs = Some (List.length before).
Proof.
  induction xs as [|y xs IH]; simpl; [discriminate|].
  destruct (p y) eqn:Hy.
  - intros [= ->]. exists [], xs. repeat split. constructor.
  - intros H. destruct (IH H) as (before & after & -> & Hb & Hi).
    exists (y :: before), after. rewrite Hi. repeat split.
    now constructor.
Qed.

Lemma splice1_middle {A : Type} (before after : list A) (x : A) :
  ArrayOps.splice1 (List.length before) (before ++ x :: after) = before ++ after.
Proof.
  unfold ArrayOps.splice1.
  rewrite firstn_app, Nat.sub_diag, firstn_all. simpl. rewrite app_nil_r.
  change (x :: after) with ([x] ++ after). rewrite app_assoc.
  rewrite skipn_app.
  replace (S (List.length before)) with (List.length (before ++ [x]))
    by (rewrite length_app; simpl; lia).
  rewrite skipn_all, Nat.sub_diag. reflexivity.
Qed.

(** X1. A request for a goal id that no goal of the document has is refused
    and changes nothing: [addContribution], [withdrawFromGoal] and
    [updateGoal] return [{ success: false, error: 'Goal not found' }],
    [deleteGoal] returns [false], and the document is not saved. *)
Theorem unknown_goal_changes_nothing
    (uuid : string) (today : CalDate) (now : string) (data : FinanceData.t)
    (goalId : string) (amount : float) (note : option string)
    (updates : GoalUpdates.t) :
  List.find (Goals.has_id goalId) (FinanceData.savingsGoals data) = None ->
  Goals.addContribution uuid today now data goalId amount note
  = (data, Goals.mkResult false None (Some "Goal not found")) /\
  Goals.withdrawFromGoal uuid today now data goalId amount note
  = (data, Goals.mkResult false None (Some "Goal not found")) /\
  Goals.updateGoal now data goalId updates
  = (data, Goals.mkResult false None (Some "Goal not found")) /\
  Goals.deleteGoal now data goalId = (data, false).
Proof.
  intros H.
  unfold Goals.addContribution, Goals.withdrawFromGoal, Goals.updateGoal,
    Goals.deleteGoal.
  rewrite H, (findIndex_none _ _ H). repeat split.
Qed.

Lemma unknown_goal_changes_nothing_witness :
  Goals.deleteGoal "t1" Goals.demo_data "g-2" = (Goals.demo_data, false).
Proof.
  apply (unknown_goal_changes_nothing "c-1" (mkDate 2024 6 2) "t1" Goals.demo_data
           "g-2" 1%float None (GoalUpdates.mk None None None)).
  reflexivity.
Defined.

(** X2. A withdrawal that is not more than the balance succeeds, appends the
    entry [-amount] with the note (or 'Withdrawal'), and leaves a balance that
    is not below zero: [withdrawFromGoal] never overdraws a goal. *)
Theorem withdraw_never_overdraws
    (uuid : string) (today : CalDate) (now : string) (data : FinanceData.t)
    (goalId : string) (amount : float) (note : option string) (g : SavingsGoal.t) :
  List.find (Goals.has_id goalId) (FinanceData.savingsGoals data) = Some g ->
  (SavingsGoal.currentAmount g <? amount)%float = false ->
  let g' :=
    Goals.push_contribution
      (GoalContribution.mk uuid (- amount)%float today
         (Some (Goals.note_or_default note)))
      (SavingsGoal.currentAmount g - amount)%float g in
  let res := Goals.withdrawFromGoal uuid today now data goalId amount note in
  snd res = Goals.mkResult true (Some g') None /\
  List.find (Goals.has_id goalId) (FinanceData.savingsGoals (fst res)) = Some g' /\
  FinanceData.lastUpdated (fst res) = now /\
  (SavingsGoal.currentAmount g' <? 0)%float = false.
Proof.
  intros Hfind Hle g' res. subst res. unfold Goals.withdrawFromGoal.
  rewrite Hfind, Hle. simpl. repeat split.
  - apply (find_mutate_first _ _ _ _ Hfind).
    apply List.find_some in Hfind as [_ Hid]. exact Hid.
  - now apply float_sub_not_negative.
Qed.

Lemma withdraw_never_overdraws_witness :
  Goals.success
    (snd (Goals.withdrawFromGoal "c-1" (mkDate 2024 6 2) "t1" Goals.demo_data "g-1"
            0%float None)) = true.
Proof.
  pose proof (withdraw_never_overdraws "c-1" (mkDate 2024 6 2) "t1" Goals.demo_data
                "g-1" 0%float None Goals.demo_goal eq_refl eq_refl) as H.
  destruct H as [H _]. rewrite H. reflexivity.
Defined.

(** X3. [deleteGoal] takes out the first goal with the id and nothing else:
    the goals before and after it stay in order, the document is saved, and
    every goal that is left keeps [currentAmount] equal to its ledger sum if
    it had it before. *)
Theorem deleteGoal_removes_first_match
    (now : string) (data : FinanceData.t) (id : string) (g : SavingsGoal.t) :
  List.find (Goals.has_id id) (FinanceData.savingsGoals data) = Some g ->
  exists before after,
    FinanceData.savingsGoals data = before ++ g :: after /\
    Forall (fun h => Goals.has_id id h = false) before /\
    Goals.deleteGoal now data id
    = (saveData now (FinanceData.with_savingsGoals (before ++ after) data), true) /\
    (Forall Goals.consistent (FinanceData.savingsGoals data) ->
     Forall Goals.consistent (before ++ after)).
Proof.
  intros Hfind.
  destruct (findIndex_some _ _ _ Hfind) as (before & after & Hsplit & Hb & Hi).
  exists before, after. split; [exact Hsplit|]. split; [exact Hb|]. split.
  - unfold Goals.deleteGoal. rewrite Hi, Hsplit, splice1_middle. reflexivity.
  - rewrite Hsplit. intros Hall.
    apply Forall_app in Hall as [H1 H2]. apply Forall_app. split; [exact H1|].
    now inversion H2.
Qed.

Lemma deleteGoal_removes_first_match_witness :
  exists before after,
    FinanceData.savingsGoals Goals.demo_data = before ++ Goals.demo_goal :: after /\
    Forall (fun h => Goals.has_id "g-1" h = false) before /\
    Goals.deleteGoal "t1" Goals.demo_data "g-1"
    = (saveData "t1" (FinanceData.with_savingsGoals (before ++ after) Goals.demo_data),
       true) /\
    (Forall Goals.consistent (FinanceData.savingsGoals Goals.demo_data) ->
     Forall Goals.consistent (before ++ after)).
Proof.
  apply (deleteGoal_removes_first_match "t1" Goals.demo_data "g-1" Goals.demo_goal).
  reflexivity.
Defined.

(** X4. [updateGoal] changes at most the name, the target and the deadline of
    the first goal with the id: the id, [currentAmount], the ledger, the
    creation stamp and the currency stay, so the ledger invariant is kept.  An
    empty name and a target of 0 or [NaN] are ignored, and a deadline cannot
    be taken away. *)
Theorem updateGoal_keeps_the_ledger
    (now : string) (data : FinanceData.t) (id : string) (updates : GoalUpdates.t)
    (g : SavingsGoal.t) :
  List.find (Goals.has_id id) (FinanceData.savingsGoals data) = Some g ->
  let res := Goals.updateGoal now data id updates in
  exists g',
    snd res = Goals.mkResult true (Some g') None /\
    List.find (Goals.has_id id) (FinanceData.savingsGoals (fst res)) = Some g' /\
    SavingsGoal.id g' = SavingsGoal.id g /\
    SavingsGoal.currentAmount g' = SavingsGoal.currentAmount g /\
    SavingsGoal.contributions g' = SavingsGoal.contributions g /\
    SavingsGoal.createdAt g' = SavingsGoal.createdAt g /\
    SavingsGoal.currency g' = SavingsGoal.currency g /\
    (GoalUpdates.name updates = Some "" -> SavingsGoal.name g' = SavingsGoal.name g) /\
    (forall x, GoalUpdates.targetAmount updates = Some x ->
               Number.truthy x = false ->
               SavingsGoal.targetAmount g' = SavingsGoal.targetAmount g) /\
    (SavingsGoal.deadline g <> None -> SavingsGoal.deadline g' <> None) /\
    (Forall Goals.consistent (FinanceData.savingsGoals data) ->
     Forall Goals.consistent (FinanceData.savingsGoals (fst res))).
Proof.
  intros Hfind res. subst res. unfold Goals.updateGoal. rewrite Hfind. simpl.
  exists (Goals.updated updates g). repeat split.
  - apply (find_mutate_first _ _ _ _ Hfind).
    apply List.find_some in Hfind as [_ Hid]. exact Hid.
  - intros E. simpl. now rewrite E.
  - intros x E Hx. simpl. now rewrite E, Hx.
  - simpl. destruct (GoalUpdates.deadline updates); [discriminate|tauto].
  - intros Hall. apply mutate_first_Forall; [|exact Hall].
    unfold Goals.consistent. simpl.
    exact (find_Forall _ _ _ _ Hall Hfind).
Qed.

Lemma updateGoal_keeps_the_ledger_witness :
  exists g',
    snd (Goals.updateGoal "t1" Goals.demo_data "g-1"
           (GoalUpdates.mk (Some "") (Some 0%float) None))
    = Goals.mkResult true (Some g') None /\
    SavingsGoal.targetAmount g' = 1000%float.
Proof.
  destruct (updateGoal_keeps_the_ledger "t1" Goals.demo_data "g-1"
              (GoalUpdates.mk (Some "") (Some 0%float) None) Goals.demo_goal eq_refl)
    as (g' & H1 & _ & _ & _ & _ & _ & _ & _ & H2 & _).
  exists g'. split; [exact H1|]. now apply (H2 0%float).
Defined.

(** X5. In [getGoalsSummary] the number of completed goals is at most the
    number of goals, which is the length of the list; the overall progress is
    0 unless the targets add up to more than 0, so it is 0 (not [NaN]) for a
    document without goals. *)
Theorem getGoalsSummary_bounds (data : FinanceData.t) :
  let summary := Goals.getGoalsSummary data in
  Goals.totalGoals summary = List.length (FinanceData.savingsGoals data) /\
  (Goals.completedGoals summary <= Goals.totalGoals summary)%nat /\
  ((0 <? Goals.totalTargetAmount summary)%float = false ->
   Goals.overallProgress summary = 0%float) /\
  (FinanceData.savingsGoals data = [] ->
   summary = Goals.mkSummary 0 0%float 0%float 0%float 0).
Proof.
  intros summary. subst summary. unfold Goals.getGoalsSummary. simpl.
  repeat split.
  - apply List.filter_length_le.
  - intros H. now rewrite H.
  - intros H. rewrite H. reflexivity.
Qed.

(** ** Recurring transactions: dates, termination, what a call leaves *)

(** X7. When [processRecurringTransactions] returns, in whatever time zone,
    the ledger is the old one followed by the transactions it reports, none
    of them dated after today; every paused entry is as it was, every active
    entry has been advanced and is due after today; budgets and goals are
    untouched; when nothing was due the document is not changed at all; and a
    second call on the same day makes nothing and changes nothing. *)
Theorem processRecurring_settles
    (tz : TimeZone.t) (fuel : nat) (uuid : nat -> string) (today : CalDate)
    (now : string) (data data' : FinanceData.t) (result : Recurring.Processed) :
  Recurring.processRecurringTransactions tz fuel uuid today now data
  = Some (data', result) ->
  FinanceData.transactions data'
  = FinanceData.transactions data ++ Recurring.transactions result /\
  Recurring.processed result = List.length (Recurring.transactions result) /\
  Forall (fun t => Calendar.leb (Transaction.date t) today = true)
    (Recurring.transactions result) /\
  Forall2 (Recurring.settledFrom tz today)
    (FinanceData.recurringTransactions data) (FinanceData.recurringTransactions data') /\
  FinanceData.budgets data' = FinanceData.budgets data /\
  FinanceData.savingsGoals data' = FinanceData.savingsGoals data /\
  (Recurring.transactions result = [] -> data' = data) /\
  (forall fuel' uuid' now',
      Recurring.processRecurringTransactions tz fuel' uuid' today now' data'
      = Some (data', Recurring.mkProcessed 0 [])).
Proof.
  intros H.
  assert (Hagain : Forall2 (Recurring.settledFrom tz today)
            (FinanceData.recurringTransactions data)
            (FinanceData.recurringTransactions data')).
  { unfold Recurring.processRecurringTransactions in H.
    destruct (Recurring.forEach tz fuel uuid today _ _) as [[rs' st]|] eqn:Hf;
      [|discriminate].
    apply forEach_result in Hf as (Hsettled & _).
    injection H as <- _. now destruct (Recurring.processedTransactions st). }
  unfold Recurring.processRecurringTransactions in H.
  destruct (Recurring.forEach tz fuel uuid today _ _) as [[rs' st]|] eqn:Hf;
    [|discriminate].
  apply forEach_result in Hf as (_ & made & _ & Hl & Hp & Hall & Hsame).
  simpl in Hl, Hp. subst made.
  injection H as <- <-. cbn [Recurring.transactions Recurring.processed].
  repeat split.
  - rewrite Hl. now destruct (Recurring.processedTransactions st).
  - exact Hall.
  - exact Hagain.
  - now destruct (Recurring.processedTransactions st).
  - now destruct (Recurring.processedTransactions st).
  - intros E. rewrite E in *. rewrite app_nil_r in Hl. rewrite Hl, (Hsame eq_refl).
    now destruct data.
  - intros fuel' uuid' now'. apply process_nothing_due.
    exact (settled_nothing_due tz today _ _ Hagain).
Qed.

Lemma processRecurring_settles_witness :
  Recurring.processRecurringTransactions TimeZone.UTC 1 (fun _ => "again")
    (mkDate 2024 6 15) "2024-06-15T09:00:00.000Z"
    (FinanceData.mk
       [ Recurring.materialize "tx-0" (Recurring.demo_rent (mkDate 2024 6 1)) ] []
       [ Recurring.advance TimeZone.UTC (Recurring.demo_rent (mkDate 2024 6 1)) ] []
       "2024-06-15T08:00:00.000Z")
  = Some (FinanceData.mk
            [ Recurring.materialize "tx-0" (Recurring.demo_rent (mkDate 2024 6 1)) ] []
            [ Recurring.advance TimeZone.UTC (Recurring.demo_rent (mkDate 2024 6 1)) ] []
            "2024-06-15T08:00:00.000Z",
          Recurring.mkProcessed 0 []).
Proof.
  apply (processRecurring_settles TimeZone.UTC 5 Recurring.demo_uuid (mkDate 2024 6 15)
           "2024-06-15T08:00:00.000Z"
           (Recurring.only (Recurring.demo_rent (mkDate 2024 6 1)))
           _ (Recurring.mkProcessed 1
                [Recurring.materialize "tx-0" (Recurring.demo_rent (mkDate 2024 6 1))])).
  vm_compute. reflexivity.
Defined.

(** X8. The catch-up loop ends where local time is a fixed offset of less
    than a day ahead of UTC: when today and the due dates are dates that
    exist, every due date moves forward with each round, and the call returns
    once the rounds allowed cover the distance to today. *)
Theorem processRecurring_terminates
    (tz : TimeZone.t) (fuel : nat) (uuid : nat -> string) (today : CalDate)
    (now : string) (data : FinanceData.t) :
  TimeZone.steadyEast tz ->
  Calendar.valid today ->
  Forall (fun r => Calendar.valid (RecurringTransaction.nextDue r))
    (FinanceData.recurringTransactions data) ->
  (Recurring.roundsNeeded today (FinanceData.recurringTransactions data) <= fuel)%nat ->
  exists data' result,
    Recurring.processRecurringTransactions tz fuel uuid today now data
    = Some (data', result).
Proof.
  intros Hsteady Htoday Hall Hfuel. unfold Recurring.processRecurringTransactions.
  destruct (forEach_enough_fuel tz Hsteady fuel uuid today _
              (Recurring.mkRun 0 (FinanceData.transactions data) [])
              (valid_plausible _ Htoday) Hall Hfuel) as [[rs' st] Hf].
  rewrite Hf. eauto.
Qed.

Lemma processRecurring_terminates_witness :
  exists data' result,
    Recurring.processRecurringTransactions (TimeZone.fixed 60) 50 Recurring.demo_uuid
      (mkDate 2024 6 15) "2024-06-15T08:00:00.000Z"
      (Recurring.only (Recurring.demo_rent (mkDate 2024 4 30)))
    = Some (data', result).
Proof.
  apply (processRecurring_terminates (TimeZone.fixed 60) 50 Recurring.demo_uuid
           (mkDate 2024 6 15) "2024-06-15T08:00:00.000Z"
           (Recurring.only (Recurring.demo_rent (mkDate 2024 4 30)))).
  - exists (60 * 60000). split; [unfold Calendar.msPerDay; lia|].
    intros d ms. split; reflexivity.
  - vm_compute. intuition discriminate.
  - constructor; [|constructor]. vm_compute. intuition discriminate.
  - vm_compute. lia.
Defined.

(** Seven days on. *)
Lemma daysOn_makeDate (tz : TimeZone.t) (k : nat) (y m d : Z) :
  TimeZone.steadyEast tz ->
  1 <= m <= 12 -> 1 <= d <= Calendar.daysInMonth y m -> (k <= 28)%nat ->
  Recurring.daysOn tz k (mkDate y m d) = Calendar.makeDate y m (d + Z.of_nat k).
Proof.
  intros Hsteady Hm Hd. pose proof (daysInMonth_bounds y m) as Hdim.
  induction k as [|k IH]; intros Hk.
  - simpl. unfold Calendar.makeDate. rewrite Z.add_0_r.
    destruct (Z.ltb_spec (Calendar.daysInMonth y m) d); [lia|reflexivity].
  - simpl Recurring.daysOn. rewrite IH by lia.
    rewrite calculateNextDueDate_steady;
      [|exact Hsteady|apply makeDate_valid_rank; lia].
    unfold Calendar.makeDate.
    destruct (Z.ltb_spec (Calendar.daysInMonth y m) (d + Z.of_nat k)) as [Hover|Hin].
    + destruct (Z.ltb_spec (Calendar.daysInMonth y m) (d + Z.of_nat (S k))); [|lia].
      destruct (Calendar.nextMonth y m) as [y' m'] eqn:Hnext. simpl.
      pose proof (daysInMonth_bounds y' m') as Hdim'.
      unfold Calendar.makeDate.
      destruct (Z.ltb_spec (Calendar.daysInMonth y' m')
                  (d + Z.of_nat k - Calendar.daysInMonth y m + 1)); [lia|].
      f_equal. lia.
    + simpl. unfold Calendar.makeDate.
      destruct (Z.ltb_spec (Calendar.daysInMonth y m) (d + Z.of_nat k + 1));
        destruct (Z.ltb_spec (Calendar.daysInMonth y m) (d + Z.of_nat (S k)));
        try lia.
      * destruct (Calendar.nextMonth y m) as [y' m']. f_equal. lia.
      * f_equal. lia.
Qed.

(** X9. Where local time is a fixed offset of less than a day ahead of UTC,
    for a date that exists the weekly step is the daily step taken seven
    times, across the end of a month or a year as well. *)
Theorem weekly_is_seven_days (tz : TimeZone.t) (d : CalDate) :
  TimeZone.steadyEast tz ->
  Calendar.valid d ->
  Recurring.calculateNextDueDate tz d weekly = Recurring.daysOn tz 7 d.
Proof.
  intros Hsteady Hv. rewrite calculateNextDueDate_steady by assumption.
  destruct d as [y m dd]. destruct Hv as [Hm Hd]. cbn [year month day] in Hm, Hd.
  rewrite daysOn_makeDate by (try assumption; lia). reflexivity.
Qed.

Lemma weekly_is_seven_days_witness :
  Recurring.calculateNextDueDate TimeZone.UTC (mkDate 2024 12 28) weekly
  = Recurring.daysOn TimeZone.UTC 7 (mkDate 2024 12 28).
Proof.
  apply (weekly_is_seven_days TimeZone.UTC (mkDate 2024 12 28)).
  - exists 0. split; [unfold Calendar.msPerDay; lia|].
    intros d ms. split; reflexivity.
  - vm_compute. intuition discriminate.
Defined.

(** X6. Where local time is a fixed offset of less than a day ahead of UTC,
    the next due date does not depend on the zone: it is the step on the
    calendar.  For a date that exists and every frequency it is a date that
    exists and is strictly later: up to seven days past the end of a month,
    or a 29th to 31st that the next month does not have, is carried into the
    following month. *)
Theorem calculateNextDueDate_exists_and_later
    (tz : TimeZone.t) (d : CalDate) (f : Frequency) :
  TimeZone.steadyEast tz ->
  Calendar.valid d ->
  Recurring.calculateNextDueDate tz d f = Recurring.calculateNextDueDate TimeZone.UTC d f /\
  Calendar.valid (Recurring.calculateNextDueDate tz d f) /\
  Calendar.leb (Recurring.calculateNextDueDate tz d f) d = false /\
  Calendar.leb d (Recurring.calculateNextDueDate tz d f) = true.
Proof.
  intros Hsteady Hv. destruct (next_valid_later tz d f Hsteady Hv) as [Hv' Hr].
  split; [|split; [exact Hv'|]].
  - rewrite !calculateNextDueDate_steady; try assumption; [reflexivity|].
    exists 0. split; [unfold Calendar.msPerDay; lia|].
    intros d' ms. split; reflexivity.
  - rewrite !leb_rank by now apply valid_plausible.
    split; [apply Z.leb_gt|apply Z.leb_le]; lia.
Qed.

Lemma calculateNextDueDate_exists_and_later_witness :
  Calendar.valid
    (Recurring.calculateNextDueDate (TimeZone.fixed 540) (mkDate 2024 1 31) monthly).
Proof.
  apply (calculateNextDueDate_exists_and_later (TimeZone.fixed 540)
           (mkDate 2024 1 31) monthly).
  - exists (540 * 60000). split; [unfold Calendar.msPerDay; lia|].
    intros d ms. split; reflexivity.
  - vm_compute. intuition discriminate.
Defined.

Lemma float_abs_not_negative (x : float) : (PrimFloat.abs x <? 0)%float = false.
Proof.
  rewrite FloatAxioms.ltb_spec, FloatAxioms.abs_spec.
  destruct (Prim2SF x) as [s|s| |s m e]; reflexivity.
Qed.

Lemma float_abs_opp (x : float) : PrimFloat.abs (- x) = PrimFloat.abs x.
Proof.
  apply Prim2SF_inj. rewrite !FloatAxioms.abs_spec, FloatAxioms.opp_spec.
  destruct (Prim2SF x) as [s|s| |s m e]; reflexivity.
Qed.

(** X10. [createRecurringTransaction] ignores the sign of the amount: the
    entry made from [-amount] is the entry made from [amount], its amount is
    not below zero, and it starts active with [nextDue] = [startDate], which is
    today when no start date is given. *)
Theorem createRecurringTransaction_ignores_sign
    (uuid : string) (today : CalDate) (amount : float) (type : TxType)
    (category description : string) (frequency : Frequency)
    (startDate : option CalDate) (currency : option string) :
  let r :=
    Recurring.createRecurringTransaction uuid today amount type category description
      frequency startDate currency in
  Recurring.createRecurringTransaction uuid today (- amount)%float type category
    description frequency startDate currency = r /\
  (RecurringTransaction.amount r <? 0)%float = false /\
  RecurringTransaction.active r = true /\
  RecurringTransaction.nextDue r = RecurringTransaction.startDate r /\
  (startDate = None -> RecurringTransaction.nextDue r = today) /\
  (forall id, (Transaction.amount (Recurring.materialize id r) <? 0)%float = false).
Proof.
  intros r. subst r. unfold Recurring.createRecurringTransaction. simpl.
  rewrite float_abs_opp. repeat split.
  - apply float_abs_not_negative.
  - intros E. now rewrite E.
  - intros id. apply float_abs_not_negative.
Qed.

Lemma toggle_first_middle (id : string) (active : bool)
    (before after : list RecurringTransaction.t) (r : RecurringTransaction.t) :
  Forall (fun y => Recurring.has_id id y = false) before ->
  Recurring.has_id id r = true ->
  Recurring.toggle_first id active (before ++ r :: after)
  = before ++ Recurring.set_active active r :: after.
Proof.
  intros Hb Hr. induction Hb as [|y before Hy Hb IH]; simpl.
  - now rewrite Hr.
  - now rewrite Hy, IH.
Qed.

(** X11. [toggleRecurringTransaction] and [deleteRecurringTransaction] return
    [false] and leave the document alone when no entry has the id.  Otherwise
    they act on the first entry with the id only: toggling sets its [active]
    flag and keeps its schedule ([nextDue], [lastProcessed]) and the order of
    the list, deleting takes it out; the document is saved. *)
Theorem toggle_and_delete_first_match
    (now : string) (data : FinanceData.t) (id : string) (active : bool) :
  (List.find (Recurring.has_id id) (FinanceData.recurringTransactions data) = None ->
   Recurring.toggleRecurringTransaction now data id active = (data, false) /\
   Recurring.deleteRecurringTransaction now data id = (data, false)) /\
  (forall r,
      List.find (Recurring.has_id id) (FinanceData.recurringTransactions data) = Some r ->
      exists before after,
        FinanceData.recurringTransactions data = before ++ r :: after /\
        Forall (fun y => Recurring.has_id id y = false) before /\
        Recurring.toggleRecurringTransaction now data id active
        = (saveData now
             (Recurring.with_recurring
                (before ++ Recurring.set_active active r :: after) data), true) /\
        RecurringTransaction.nextDue (Recurring.set_active active r)
        = RecurringTransaction.nextDue r /\
        RecurringTransaction.active (Recurring.set_active active r) = active /\
        Recurring.deleteRecurringTransaction now data id
        = (saveData now (Recurring.with_recurring (before ++ after) data), true)).
Proof.
  split.
  - intros H. unfold Recurring.toggleRecurringTransaction,
      Recurring.deleteRecurringTransaction.
    now rewrite H, (findIndex_none _ _ H).
  - intros r Hfind.
    destruct (findIndex_some _ _ _ Hfind) as (before & after & Hsplit & Hb & Hi).
    exists before, after. split; [exact Hsplit|]. split; [exact Hb|].
    unfold Recurring.toggleRecurringTransaction, Recurring.deleteRecurringTransaction.
    rewrite Hfind, Hi, Hsplit, splice1_middle.
    rewrite toggle_first_middle;
      [|exact Hb|apply List.find_some in Hfind as [_ H]; exact H].
    repeat split.
Qed.

(** ** escapeCSV *)

Lemma doubleQuotes_inj (a b : string) :
  CsvExport.doubleQuotes a = CsvExport.doubleQuotes b -> a = b.
Proof.
  revert b. induction a as [|c a IH]; intros [|d b]; simpl.
  - reflexivity.
  - destruct (Ascii.eqb d CsvExport.quote); discriminate.
  - destruct (Ascii.eqb c CsvExport.quote); discriminate.
  - destruct (Ascii.eqb_spec c CsvExport.quote) as [->|Hc];
      destruct (Ascii.eqb_spec d CsvExport.quote) as [->|Hd].
    + intros [= H]. f_equal. now apply IH.
    + intros [= H _]. congruence.
    + intros [= H _]. congruence.
    + intros [= -> H]. f_equal. now apply IH.
Qed.

Lemma append_one_inj (a b : string) (c : ascii) :
  String.append a (String c EmptyString) = String.append b (String c EmptyString) ->
  a = b.
Proof.
  revert b. induction a as [|x a IH]; intros [|y b]; simpl.
  - reflexivity.
  - intros [= _ H]. destruct b; discriminate.
  - intros [= _ H]. destruct a; discriminate.
  - intros [= -> H]. f_equal. now apply IH.
Qed.

Lemma quoted_needsQuotes (s : string) :
  CsvExport.needsQuotes (String CsvExport.quote s) = true.
Proof.
  unfold CsvExport.needsQuotes.
  change (CsvExport.hasChar CsvExport.quote (String CsvExport.quote s)) with true.
  now rewrite orb_true_r.
Qed.

(** X12.  [escapeCSV] writes a value without comma, double quote or line
    break as it is; any other value is put between double quotes with one
    more character for each double quote it holds.  Two different strings
    never give the same field, and [undefined] gives the field of the empty
    string. *)
Theorem escapeCSV_keeps_values_apart :
  (forall str, CsvExport.needsQuotes str = false ->
     CsvExport.escapeCSV (Some str) = str)
  /\ (forall str, CsvExport.needsQuotes str = true ->
        exists body,
          CsvExport.escapeCSV (Some str)
          = String CsvExport.quote
              (String.append body (String CsvExport.quote EmptyString))
          /\ String.length body
             = (String.length str
                + List.length
                    (List.filter (fun c => Ascii.eqb c CsvExport.quote)
                       (list_ascii_of_string str)))%nat)
  /\ (forall a b,
        CsvExport.escapeCSV (Some a) = CsvExport.escapeCSV (Some b) -> a = b)
  /\ CsvExport.escapeCSV None = CsvExport.escapeCSV (Some "").
Proof.
  split; [|split; [|split]].
  - intros str H. unfold CsvExport.escapeCSV. now rewrite H.
  - intros str H. exists (CsvExport.doubleQuotes str). split.
    + unfold CsvExport.escapeCSV. now rewrite H.
    + clear H. induction str as [|c s IH]; simpl; [reflexivity|].
      destruct (Ascii.eqb c CsvExport.quote); simpl; rewrite IH; lia.
  - intros a b. unfold CsvExport.escapeCSV.
    destruct (CsvExport.needsQuotes a) eqn:Ha;
      destruct (CsvExport.needsQuotes b) eqn:Hb.
    + intros [= H]. apply append_one_inj in H. now apply doubleQuotes_inj.
    + intros H. rewrite <- H, quoted_needsQuotes in Hb. discriminate.
    + intros H. rewrite H, quoted_needsQuotes in Ha. discriminate.
    + trivial.
  - reflexivity.
Qed.

(** ** exportCategoryBreakdownToCSV *)

Lemma insertIndex_permutation {V : Type} (n : N) (e : string * V) l :
  Permutation (map snd (Obj.insertIndex n e l)) (e :: map snd l).
Proof.
  induction l as [|[n' e'] l IH]; simpl; [reflexivity|].
  destruct (n <? n')%N; simpl; [reflexivity|].
  rewrite IH. apply perm_swap.
Qed.

Lemma entries_permutation {V : Type} (o : Obj.t V) : Permutation (Obj.entries o) o.
Proof.
  unfold Obj.entries, Obj.indexed, Obj.named.
  assert (H : forall acc,
    Permutation
      (map snd
         (fold_left
            (fun acc e => match Obj.arrayIndex (fst e) with
                          | Some n => Obj.insertIndex n e acc
                          | None => acc
                          end) o acc)
       ++ List.filter
            (fun e => match Obj.arrayIndex (fst e) with
                      | Some _ => false
                      | None => true
                      end) o)
      (map snd acc ++ o)).
  { induction o as [|e o IH]; intros acc; simpl; [reflexivity|].
    destruct (Obj.arrayIndex (fst e)) as [n|].
    - eapply Permutation_trans; [apply IH|].
      eapply Permutation_trans;
        [apply Permutation_app_tail, insertIndex_permutation|].
      simpl. apply Permutation_middle.
    - eapply Permutation_trans; [|apply Permutation_middle].
      eapply Permutation_trans; [symmetry; apply Permutation_middle|].
      constructor. apply IH. }
  apply (H []).
Qed.

Lemma get_seenBefore {V : Type} (o : Obj.t V) (k : string) :
  Storage.seenBefore (map fst o) k
  = match Obj.get o k with Some _ => true | None => false end.
Proof.
  induction o as [|[k' v] o IH]; simpl; [reflexivity|].
  destruct (String.eqb k' k); [reflexivity|exact IH].
Qed.

Lemma seenBefore_In (seen : list string) (k : string) :
  Storage.seenBefore seen k = true <-> In k seen.
Proof.
  unfold Storage.seenBefore. rewrite existsb_exists. split.
  - intros [x [Hx He]]. apply String.eqb_eq in He. now subst.
  - intros H. exists k. split; [exact H|apply String.eqb_refl].
Qed.

Lemma firstSeen_In (seen cs : list string) (c : string) :
  In c (Storage.firstSeen seen cs) <-> In c cs /\ ~ In c seen.
Proof.
  revert seen. induction cs as [|x cs IH]; intros seen; simpl; [tauto|].
  destruct (Storage.seenBefore seen x) eqn:Hx.
  - apply seenBefore_In in Hx. rewrite IH. split.
    + tauto.
    + intros [[->|H] Hn]; tauto.
  - assert (Hn : ~ In x seen).
    { rewrite <- seenBefore_In. congruence. }
    simpl. rewrite IH, in_app_iff. simpl. split.
    + intros [->|[H Hs]]; tauto.
    + intros [[->|H] Hs]; [tauto|].
      destruct (string_dec x c) as [->|Hne]; tauto.
Qed.

Lemma firstSeen_NoDup (seen cs : list string) :
  List.NoDup (Storage.firstSeen seen cs).
Proof.
  revert seen. induction cs as [|x cs IH]; intros seen; simpl; [constructor|].
  destruct (Storage.seenBefore seen x); [apply IH|].
  constructor; [|apply IH].
  rewrite firstSeen_In, in_app_iff. simpl. tauto.
Qed.

Section Breakdown.
Import CsvExport.

Lemma get_set_fresh {V : Type} (o : Obj.t V) (k : string) (v w : V) :
  Obj.get o k = None ->
  Obj.get (o ++ [(k, v)]) k = Some v /\ Obj.set (o ++ [(k, v)]) k w = o ++ [(k, w)].
Proof.
  induction o as [|[k' v'] o IH]; simpl.
  - now rewrite String.eqb_refl.
  - destruct (String.eqb k' k); [discriminate|].
    intros H. destruct (IH H) as [H1 H2]. now rewrite H2.
Qed.

Lemma tallyCategory_seen (o : Obj.t CategoryData) (t : Transaction.t) d :
  List.NoDup (map fst o) -> Obj.get o (Transaction.category t) = Some d ->
  tallyCategory o t = map (Obj.onKey (Transaction.category t) (bump t)) o.
Proof.
  intros Hnd Hget. unfold tallyCategory. rewrite Hget. cbv zeta. rewrite Hget.
  now apply set_onKey.
Qed.

Lemma tallyCategory_new (o : Obj.t CategoryData) (t : Transaction.t) :
  Obj.get o (Transaction.category t) = None ->
  tallyCategory o t = o ++ [(Transaction.category t, bump t noTransactions)].
Proof.
  intros Hget. unfold tallyCategory. rewrite Hget. cbv zeta.
  rewrite (set_fresh o _ noTransactions Hget).
  destruct (get_set_fresh o _ noTransactions (bump t noTransactions) Hget) as [H1 H2].
  now rewrite H1.
Qed.

Lemma get_none_other {V : Type} (o : Obj.t V) (k : string) :
  Obj.get o k = None -> Forall (fun e => String.eqb (fst e) k = false) o.
Proof.
  induction o as [|[k' v] o IH]; simpl; [constructor|].
  destruct (String.eqb k' k) eqn:E; [discriminate|].
  intros H. constructor; [exact E|now apply IH].
Qed.

Lemma fold_tallyCategory (ts : list Transaction.t) (o : Obj.t CategoryData) :
  List.NoDup (map fst o) ->
  fold_left tallyCategory ts o
  = map (fun e => (fst e, accumCategory (fst e) ts (snd e))) o
    ++ map (fun c => (c, accumCategory c ts noTransactions))
         (Storage.firstSeen (map fst o) (map Transaction.category ts)).
Proof.
  revert o. induction ts as [|t ts IH]; intros o Hnd; simpl.
  - rewrite app_nil_r. rewrite <- (map_id o) at 1. apply map_ext. now intros [k d].
  - rewrite get_seenBefore.
    destruct (Obj.get o (Transaction.category t)) as [d|] eqn:Hget.
    + rewrite (tallyCategory_seen o t d Hnd Hget).
      rewrite IH by (rewrite map_map; exact Hnd).
      rewrite !map_map. simpl. f_equal.
      apply map_ext_in. intros c Hc. f_equal. unfold accumCategory. simpl.
      apply firstSeen_In in Hc. destruct Hc as [_ Hc].
      destruct (String.eqb_spec c (Transaction.category t)) as [->|Hne];
        [|reflexivity].
      exfalso. apply Hc. rewrite <- seenBefore_In, get_seenBefore. now rewrite Hget.
    + rewrite (tallyCategory_new o t Hget).
      assert (Hn : ~ In (Transaction.category t) (map fst o)).
      { rewrite <- seenBefore_In, get_seenBefore, Hget. discriminate. }
      rewrite IH.
      2:{ rewrite map_app. simpl.
          eapply Permutation_NoDup; [apply Permutation_cons_append|].
          now constructor. }
      rewrite !map_app. simpl. rewrite <- app_assoc. simpl. f_equal.
      * apply map_ext_in. intros [k d] Hk. simpl. f_equal.
        unfold accumCategory. simpl.
        apply get_none_other in Hget.
        rewrite List.Forall_forall in Hget. specialize (Hget _ Hk). simpl in Hget.
        now rewrite Hget.
      * f_equal.
        -- f_equal. unfold accumCategory. simpl. now rewrite String.eqb_refl.
        -- apply map_ext_in. intros c Hc. f_equal. unfold accumCategory. simpl.
           apply firstSeen_In in Hc. destruct Hc as [_ Hc].
           rewrite in_app_iff in Hc. simpl in Hc.
           destruct (String.eqb_spec c (Transaction.category t)) as [->|Hne];
             [tauto|reflexivity].
Qed.

Lemma accumCategory_summary (c : string) ts d :
  accumCategory c ts d
  = mkCategory
      (fold_left (fun sum t => (sum + Transaction.amount t)%float)
         (List.filter Storage.isIncome
            (List.filter (fun t => String.eqb c (Transaction.category t)) ts))
         (categoryIncome d))
      (fold_left (fun sum t => (sum + Transaction.amount t)%float)
         (List.filter (fun t => negb (Storage.isIncome t))
            (List.filter (fun t => String.eqb c (Transaction.category t)) ts))
         (categoryExpenses d))
      (categoryCount d
       + List.length (List.filter (fun t => String.eqb c (Transaction.category t)) ts)).
Proof.
  revert d. unfold accumCategory.
  induction ts as [|t ts IH]; intros d; simpl.
  - destruct d. simpl. f_equal. lia.
  - destruct (String.eqb c (Transaction.category t)); [|apply IH].
    rewrite IH. unfold bump. simpl.
    destruct (Storage.isIncome t); simpl; f_equal; lia.
Qed.

Lemma byVolumeDescending_one_way (x y : string * CategoryData) :
  (0 <? byVolumeDescending y x)%float = true ->
  (0 <? byVolumeDescending x y)%float = false.
Proof. apply float_sub_positive_one_way. Qed.

Lemma inRange_In startDate endDate ts (t : Transaction.t) :
  In t (inRange startDate endDate ts)
  <-> In t ts
      /\ (forall s, startDate = Some s -> Calendar.leb s (Transaction.date t) = true)
      /\ (forall e, endDate = Some e -> Calendar.leb (Transaction.date t) e = true).
Proof.
  unfold inRange. destruct startDate as [s|], endDate as [e|];
    rewrite ?filter_In; split.
  - intros [[H1 H2] H3]. repeat split; [exact H1| |]; now intros ? [= <-].
  - intros [H1 [H2 H3]]. auto.
  - intros [H1 H2]. repeat split; [exact H1| |]; [now intros ? [= <-]|discriminate].
  - intros [H1 [H2 H3]]. auto.
  - intros [H1 H2]. repeat split; [exact H1| |]; [discriminate|now intros ? [= <-]].
  - intros [H1 [H2 H3]]. auto.
  - intros H. repeat split; [exact H| |]; discriminate.
  - tauto.
Qed.

(** X13.  The rows of [exportCategoryBreakdownToCSV]: the transactions
    counted are those of the ledger dated within the bounds that were given;
    the rows are, in some order, one row for each category of these
    transactions, holding the category's income, its expenses and the number
    of its transactions; no category has two rows, a category has a row
    exactly when a counted transaction has it; and no row stands before one
    of greater volume as the comparator sees it. *)
Theorem category_breakdown_rows (data : FinanceData.t)
    (startDate endDate : option CalDate) :
  let selected := inRange startDate endDate (FinanceData.transactions data) in
  let rows := breakdownRows startDate endDate data in
  (forall t, In t selected
     <-> In t (FinanceData.transactions data)
         /\ (forall s, startDate = Some s ->
               Calendar.leb s (Transaction.date t) = true)
         /\ (forall e, endDate = Some e ->
               Calendar.leb (Transaction.date t) e = true))
  /\ Permutation rows
       (map (fun c => (c, categorySummary c selected))
          (Storage.firstSeen [] (map Transaction.category selected)))
  /\ List.NoDup (map fst rows)
  /\ (forall c, In c (map fst rows)
        <-> exists t, In t selected /\ Transaction.category t = c)
  /\ Sorted (JSArray.mayPrecede byVolumeDescending) rows.
Proof.
  intros selected rows.
  assert (Hrows : Permutation rows
            (map (fun c => (c, categorySummary c selected))
               (Storage.firstSeen [] (map Transaction.category selected)))).
  { unfold rows, breakdownRows. fold selected.
    eapply Permutation_trans; [symmetry; apply sort_permutation|].
    eapply Permutation_trans; [apply entries_permutation|].
    rewrite fold_tallyCategory by constructor. simpl.
    erewrite map_ext; [reflexivity|].
    intros c. now rewrite accumCategory_summary. }
  assert (Hkeys : Permutation (map fst rows)
            (Storage.firstSeen [] (map Transaction.category selected))).
  { eapply Permutation_trans; [apply Permutation_map, Hrows|].
    rewrite map_map. simpl. now rewrite map_id. }
  split; [apply inRange_In|]. split; [exact Hrows|]. split; [|split].
  - eapply Permutation_NoDup; [symmetry; exact Hkeys|apply firstSeen_NoDup].
  - intros c. split.
    + intros H. apply (Permutation_in _ Hkeys) in H.
      apply firstSeen_In in H. destruct H as [H _].
      apply in_map_iff in H. destruct H as [t [Ht Hin]]. now exists t.
    + intros [t [Hin <-]]. apply (Permutation_in _ (Permutation_sym Hkeys)).
      apply firstSeen_In. split; [now apply in_map|tauto].
  - apply sort_sorted. apply byVolumeDescending_one_way.
Qed.

End Breakdown.
